(** * Interlink auto-claim bot: the claim scheduler of [bot.py]

    A shallow embedding of the scheduler subsystem of [src/bot.py]: the
    remote-call wrappers ([api_check_claimable], [api_get_token_info],
    [api_claim_airdrop]), the claim block shared by the manual action and
    the background loop, the history view, one iteration of
    [auto_claim_task_function], and the task registry handlers
    ([core_autoclaim_start], [core_autoclaim_stop], [post_init]).

    Conventions of the embedding.
    - JSON documents are values of [json]; Python's [None] is [JNull] and a
      Python [dict] is a [gmap string json].  Numbers are integers, as the
      data model of the service has them.
    - A remote call is an input: what [make_api_request] returned, a pair of
      an optional dictionary and an optional status code, as its annotation
      [tuple[dict | None, int | None]] says.
    - [random.uniform a b] is [a + (b - a) * random()]; the successive values
      of [random()] are read from a stream carried by the environment.
    - Seconds are rationals; milliseconds are integers.
    - User identities are Telegram user ids, natural numbers; chat ids are
      integers.
    - Texts sent to the user are kept symbolic: one constructor per message
      template of the source, carrying the values interpolated in it.
      [send_chat_action], the typing indicator, carries no text and is left
      out.
    - The files under [user_data/] and [claim_history/] are finite maps; the
      notification sink and the file system do not fail.
    - An [asyncio.Task] is an entry of the list [tasks]; a handle is its
      index.  The event loop runs a task from one suspension to the next in
      one step; cancellation is delivered at the suspension point. *)

From Stdlib Require Import ZArith QArith Qround Qminmax String Ascii.
From Stdlib Require Import DecimalString DecimalN DecimalPos Lqa.
From stdpp Require Import gmap strings list fin_maps.

Set Warnings "-register-all".
#[local] Open Scope Z_scope.

(** ** JSON values and the Python operations the code applies to them *)

Inductive json : Type :=
| JNull
| JBool (b : bool)
| JInt (n : Z)
| JStr (s : string)
| JList (l : list json)
| JDict (d : gmap string json).

Abbreviation dict := (gmap string json).

(** [d], used as a condition: an empty dictionary is false. *)
Definition dict_truthy (d : dict) : bool := negb (Nat.eqb (size d) 0).

(** [bool(x)] of Python. *)
Definition truthy (j : json) : bool :=
  match j with
  | JNull => false
  | JBool b => b
  | JInt n => negb (n =? 0)
  | JStr s => negb (String.eqb s "")
  | JList l => match l with [] => false | _ => true end
  | JDict d => dict_truthy d
  end.

(** [d.get(k, dflt)] and [d.get(k)]. *)
Definition dict_get (d : dict) (k : string) (dflt : json) : json :=
  default dflt (d !! k).

Definition dict_get_none (d : dict) (k : string) : json := dict_get d k JNull.

(** [k in d]. *)
Definition dict_has (d : dict) (k : string) : bool :=
  match d !! k with Some _ => true | None => false end.

(** [isinstance(x, bool)]. *)
Definition is_bool (j : json) : bool :=
  match j with JBool _ => true | _ => false end.

(** ** Exceptions and the state-and-exception monad *)

Inductive exn : Type :=
| ValueError
| HTTPStatusError (code : Z)
| TypeError
| AttributeError.

Inductive outcome (A : Type) : Type :=
| Returned (a : A)
| Raised (e : exn).
Arguments Returned {A} a.
Arguments Raised {A} e.

Definition M (S A : Type) : Type := S → outcome A * S.

#[global] Instance M_ret {S} : MRet (M S) := λ A a s, (Returned a, s).

#[global] Instance M_bind {S} : MBind (M S) := λ A B f m s,
  match m s with
  | (Returned a, s') => f a s'
  | (Raised e, s') => (Raised e, s')
  end.

Definition raise {S A} (e : exn) : M S A := λ s, (Raised e, s).
Definition gets {S A} (f : S → A) : M S A := λ s, (Returned (f s), s).
Definition modify {S} (f : S → S) : M S unit := λ s, (Returned tt, f s).

(** A pure step that may raise. *)
Definition lift_outcome {S A} (o : outcome A) : M S A := λ s, (o, s).

(** [try: body except ...: handler]. *)
Definition try_except {S A} (body : M S A) (handler : exn → M S A) : M S A :=
  λ s, match body s with
       | (Returned a, s') => (Returned a, s')
       | (Raised e, s') => handler e s'
       end.

(** [x.get(k, dflt)] on a value that need not be a dictionary. *)
Definition py_get (j : json) (k : string) (dflt : json) : outcome json :=
  match j with
  | JDict d => Returned (dict_get d k dflt)
  | _ => Raised AttributeError
  end.

(** The integer a value stands for in arithmetic and comparisons
    ([bool] is a subclass of [int]). *)
Definition as_int (j : json) : outcome Z :=
  match j with
  | JInt n => Returned n
  | JBool b => Returned (if b then 1 else 0)
  | _ => Raised TypeError
  end.

(** [a - b]. *)
Definition py_sub (a b : json) : outcome Z :=
  match as_int a, as_int b with
  | Returned x, Returned y => Returned (x - y)
  | Raised e, _ => Raised e
  | _, Raised e => Raised e
  end.

(** ** Rational helpers *)

Definition Qlt_bool (x y : Q) : bool := negb (Qle_bool y x).

(** [int(x)]: truncation towards zero. *)
Definition py_int (x : Q) : Z :=
  if Qle_bool 0 x then Qfloor x else Qceiling x.

(** [random.uniform(a, b)] at the value [r] of [random()]. *)
Definition uniform (a b r : Q) : Q := (a + (b - a) * r)%Q.

(** ** What [make_api_request] returned, and the four wrappers around it *)

Definition http_result : Type := option dict * option Z.

Definition status_is (code : Z) (status : option Z) : bool :=
  match status with Some c => c =? code | None => false end.

(** [x == "literal"] for a JSON value [x]. *)
Definition json_is_str (j : json) (s : string) : bool :=
  match j with JStr t => String.eqb t s | _ => false end.

Definition is_none (j : json) : bool :=
  match j with JNull => true | _ => false end.

(** The text returned next to a payload.  [MsgServer j] is the value of the
    response's own ["message"] entry; [MsgFailed] and [MsgError] are the
    f-strings built around the server's entry; [MsgUnverified m] is [m]
    followed by the remark that the new balance could not be read. *)
Inductive api_message : Type :=
| MsgText (s : string)
| MsgServer (j : json)
| MsgFailed (label : string) (j : json) (status : option Z)
| MsgError (label : string) (j : json)
| MsgUnverified (m : api_message).

(** [d.get("message", literal)]. *)
Definition message_or (d : dict) (literal : string) : api_message :=
  match d !! "message" with
  | Some j => MsgServer j
  | None => MsgText literal
  end.

Definition api_get_token_info (r : http_result) : json * api_message :=
  let '(data, status) := r in
  match data with
  | Some d =>
      if dict_truthy d && status_is 200 status && dict_has d "data" then
        (dict_get_none d "data", message_or d "Informasi token berhasil dimuat.")
      else if dict_truthy d && dict_has d "message" then
        (JNull, MsgFailed "Gagal" (dict_get_none d "message") status)
      else if dict_truthy d && dict_has d "error_message" then
        (JNull, MsgError "Error API" (dict_get_none d "error_message"))
      else
        (JNull, MsgText "Gagal memuat informasi token. Respons tidak diketahui dari server.")
  | None =>
      (JNull, MsgText "Gagal memuat informasi token. Respons tidak diketahui dari server.")
  end.

Definition api_check_claimable (r : http_result) : json * api_message * option Z :=
  let '(data_wrapper, status_code_response) := r in
  let unknown := MsgText "Gagal memeriksa status klaim. Respons tidak diketahui dari server." in
  match data_wrapper with
  | Some d =>
      if dict_truthy d then
        if status_is 200 status_code_response && dict_has d "data" then
          (dict_get_none d "data", message_or d "Status klaim berhasil diperiksa.",
           status_code_response)
        else if dict_has d "message" then
          (JNull, MsgFailed "Gagal" (dict_get_none d "message") status_code_response,
           status_code_response)
        else if dict_has d "error_message" then
          (JNull, MsgError "Error API" (dict_get_none d "error_message"),
           status_code_response)
        else (JNull, unknown, status_code_response)
      else (JNull, unknown, status_code_response)
  | None => (JNull, unknown, status_code_response)
  end.

Definition api_claim_airdrop (r : http_result) : option dict * api_message * option Z :=
  let '(response_data_dict, status_code_response) := r in
  let unknown := MsgText "Gagal melakukan klaim. Respons tidak diketahui dari server." in
  match response_data_dict with
  | Some d =>
      if dict_truthy d then
        if status_is 200 status_code_response && dict_has d "data"
           && is_bool (dict_get_none d "data") then
          (Some d, message_or d "Proses klaim selesai.", status_code_response)
        else if status_is 400 status_code_response
                && json_is_str (dict_get_none d "message") "TOKEN_CLAIM_TOO_EARLY" then
          (Some d, MsgText "Gagal Klaim: Waktu klaim token terlalu dini.",
           status_code_response)
        else if dict_has d "message" then
          (Some d, MsgFailed "Gagal Klaim" (dict_get_none d "message") status_code_response,
           status_code_response)
        else if dict_has d "error_message" then
          (Some d, MsgError "Error API Internal" (dict_get_none d "error_message"),
           status_code_response)
        else if status_is 200 status_code_response
                && json_is_str (dict_get_none d "message") "Respons kosong dari server." then
          if is_none (dict_get_none d "data_from_api") && negb (dict_has d "data") then
            (Some d, MsgText "Proses klaim selesai dengan respons kosong dari server. Silakan periksa status token Anda.",
             status_code_response)
          else (Some d, unknown, status_code_response)
        else (Some d, unknown, status_code_response)
      else (Some d, unknown, status_code_response)
  | None => (None, unknown, status_code_response)
  end.

(** ** Persisted records, notifications and the state of the process *)

(** One element of [claim_history/<user_id>_history.json]. *)
Record history_entry : Type := mkEntry {
  timestamp : string;
  success : bool;
  message : api_message;
  claimed_silver : Z;
  claimed_gold : Z;
  claimed_diamond : Z;
  total_silver_after : json;
  total_gold_after : json;
  total_diamond_after : json;
}.

(** The texts of the source, one constructor per template. *)
Inductive notification : Type :=
(* sent by the background loop *)
| NTokenNotFound
| NStoppedTokenInvalidOnCheck
| NBalanceBeforeFailed
| NClaimDetected
| NClaimSucceeded (s g d : Z) (m : api_message)
| NClaimFailed (m : api_message)
| NStoppedTokenInvalidOnClaim
| NCycleDone (minutes : Z)
| NNextClaimIn (hours minutes seconds : Z)
| NScheduleUnknown (minutes : Z)
| NCheckFailed (m : api_message) (minutes : Z)
| NRateLimited (minutes : Z)
| NStoppedConfigError
| NHttpError (code : Z)
| NStoppedHttp401
| NRateLimitedHttp (minutes : Z)
| NUnexpectedError (e : exn)
(* replies of the handlers *)
| RTokenNotSet
| RBalanceBeforeFailed (m : api_message)
| RProcessing
| RClaimResult (ok : bool) (s g d : Z) (m : api_message)
| RCheckBalanceHint
| RHistoryEmpty
| RHistory (shown : list (nat * history_entry)) (total_if_truncated : option nat)
| RStartNeedsToken
| RAlreadyActive
| RActivated
| RAlreadyInactive
| RDeactivated.

(** Where a live task is suspended. *)
Inductive suspension : Type :=
| InRemoteCall
| InSleep.

(** An [asyncio.Task] running [auto_claim_task_function]: not yet started,
    suspended with its local [user_data], returned, or cancelled. *)
Inductive task_state : Type :=
| Created
| Suspended (at_point : suspension) (user_data : dict)
| Finished
| Cancelled.

Record task : Type := mkTask { owner : N; state : task_state }.

(** [task.done()]. *)
Definition done (t : task) : bool :=
  match state t with
  | Finished | Cancelled => true
  | Created | Suspended _ _ => false
  end.

Record world : Type := mkWorld {
  user_data_files : gmap N dict;
  claim_history_files : gmap N (list history_entry);
  AUTO_CLAIM_TASKS : gmap N nat;
  LAST_LONG_WAIT_NOTIFICATION : gmap N Q;
  tasks : list task;
  sent : list (Z * notification);
  slept : list Q;
  random_calls : nat;
}.

Definition with_user_data_files (f : gmap N dict → gmap N dict) (w : world) : world :=
  mkWorld (f (user_data_files w)) (claim_history_files w) (AUTO_CLAIM_TASKS w)
          (LAST_LONG_WAIT_NOTIFICATION w) (tasks w) (sent w) (slept w) (random_calls w).

Definition with_claim_history_files
    (f : gmap N (list history_entry) → gmap N (list history_entry)) (w : world) : world :=
  mkWorld (user_data_files w) (f (claim_history_files w)) (AUTO_CLAIM_TASKS w)
          (LAST_LONG_WAIT_NOTIFICATION w) (tasks w) (sent w) (slept w) (random_calls w).

Definition with_AUTO_CLAIM_TASKS (f : gmap N nat → gmap N nat) (w : world) : world :=
  mkWorld (user_data_files w) (claim_history_files w) (f (AUTO_CLAIM_TASKS w))
          (LAST_LONG_WAIT_NOTIFICATION w) (tasks w) (sent w) (slept w) (random_calls w).

Definition with_LAST_LONG_WAIT_NOTIFICATION (f : gmap N Q → gmap N Q) (w : world) : world :=
  mkWorld (user_data_files w) (claim_history_files w) (AUTO_CLAIM_TASKS w)
          (f (LAST_LONG_WAIT_NOTIFICATION w)) (tasks w) (sent w) (slept w) (random_calls w).

Definition with_tasks (f : list task → list task) (w : world) : world :=
  mkWorld (user_data_files w) (claim_history_files w) (AUTO_CLAIM_TASKS w)
          (LAST_LONG_WAIT_NOTIFICATION w) (f (tasks w)) (sent w) (slept w) (random_calls w).

Definition with_sent (f : list (Z * notification) → list (Z * notification)) (w : world) : world :=
  mkWorld (user_data_files w) (claim_history_files w) (AUTO_CLAIM_TASKS w)
          (LAST_LONG_WAIT_NOTIFICATION w) (tasks w) (f (sent w)) (slept w) (random_calls w).

Definition with_slept (f : list Q → list Q) (w : world) : world :=
  mkWorld (user_data_files w) (claim_history_files w) (AUTO_CLAIM_TASKS w)
          (LAST_LONG_WAIT_NOTIFICATION w) (tasks w) (sent w) (f (slept w)) (random_calls w).

Definition with_random_calls (f : nat → nat) (w : world) : world :=
  mkWorld (user_data_files w) (claim_history_files w) (AUTO_CLAIM_TASKS w)
          (LAST_LONG_WAIT_NOTIFICATION w) (tasks w) (sent w) (slept w) (f (random_calls w)).

(** What the outside world answers during one action: the results of the
    remote calls in the order the code makes them, the clock readings, and
    the values of [random()]. *)
Record env : Type := mkEnv {
  http_check : http_result;        (* GET /token/check-is-claimable *)
  http_info_before : http_result;  (* GET /token/get-token, before the claim *)
  http_claim : http_result;        (* POST /token/claim-airdrop *)
  http_info_after : http_result;   (* GET /token/get-token, after the claim *)
  time_ms : Z;                     (* int(time.time() * 1000) *)
  time_sec : Q;                    (* time.time() *)
  now_wib : string;                (* datetime.now(WIB).strftime(...) *)
  rand : nat → Q;                  (* successive values of random.random() *)
}.

(** ** The stores, the sink, the clock of [asyncio] and the generator *)

Definition load_user_data (user_id : N) : M world dict :=
  gets (λ w, default ∅ (user_data_files w !! user_id)).

Definition save_user_data (user_id : N) (data : dict) : M world unit :=
  modify (with_user_data_files <[user_id := data]>).

Definition get_auth_token (user_id : N) : M world json :=
  data ← load_user_data user_id; mret (dict_get_none data "auth_token").

Definition load_claim_history (user_id : N) : M world (list history_entry) :=
  gets (λ w, default [] (claim_history_files w !! user_id)).

Definition save_claim_history (user_id : N) (history : list history_entry) : M world unit :=
  modify (with_claim_history_files <[user_id := history]>).

Definition send_message (chat_id : Z) (text : notification) : M world unit :=
  modify (with_sent (λ l, l ++ [(chat_id, text)])).

Definition asyncio_sleep (seconds : Q) : M world unit :=
  modify (with_slept (λ l, l ++ [seconds])).

Definition random_uniform (e : env) (a b : Q) : M world Q :=
  λ w, (Returned (uniform a b (rand e (random_calls w))), with_random_calls S w).

(** [user_data.get("auto_claim_active", False)] as a condition. *)
Definition auto_claim_active (user_data : dict) : bool :=
  truthy (dict_get user_data "auto_claim_active" (JBool false)).

(** ** The claim block

    [core_claim_action] (lines 483-525) and the claiming branch of
    [auto_claim_task_function] (lines 639-681) run the same statements, up to
    the suffix [_auto] of the variable names: submit the claim, decide
    whether it succeeded, read the balances again, compute the gains, build
    the history entry and append it to the user's history. *)

Record claim_result : Type := mkClaimResult {
  claim_successful : bool;
  claimed_s : Z;
  claimed_g : Z;
  claimed_d : Z;
  message_from_api_call : api_message;
  status_code : option Z;
}.

(** [claim_successful = False; if claim_api_response and
    isinstance(claim_api_response.get('data'), bool): claim_successful =
    claim_api_response.get('data', False)]. *)
Definition claim_succeeded (claim_api_response : option dict) : bool :=
  match claim_api_response with
  | Some d =>
      if dict_truthy d && is_bool (dict_get_none d "data")
      then truthy (dict_get d "data" (JBool false))
      else false
  | None => false
  end.

Definition claim_and_record (e : env) (user_id : N) (s_before g_before d_before : json)
  : M world claim_result :=
  let '(claim_api_response, message_from_api_call, status_code) :=
    api_claim_airdrop (http_claim e) in
  let claim_successful := claim_succeeded claim_api_response in
  '(claimed_s, claimed_g, claimed_d, tokens_after_payload, message_from_api_call) ←
    (if claim_successful then
       let '(tokens_after_payload, msg_after) := api_get_token_info (http_info_after e) in
       if truthy tokens_after_payload then
         s_after ← lift_outcome (py_get tokens_after_payload "interlinkSilverTokenAmount" (JInt 0));
         g_after ← lift_outcome (py_get tokens_after_payload "interlinkGoldTokenAmount" (JInt 0));
         d_after ← lift_outcome (py_get tokens_after_payload "interlinkDiamondTokenAmount" (JInt 0));
         claimed_s ← lift_outcome (py_sub s_after s_before);
         claimed_g ← lift_outcome (py_sub g_after g_before);
         claimed_d ← lift_outcome (py_sub d_after d_before);
         mret (claimed_s, claimed_g, claimed_d, tokens_after_payload, message_from_api_call)
       else
         mret (0, 0, 0, tokens_after_payload, MsgUnverified message_from_api_call)
     else
       mret (0, 0, 0, JNull, message_from_api_call));
  total_silver ←
    (if truthy tokens_after_payload
     then lift_outcome (py_get tokens_after_payload "interlinkSilverTokenAmount" s_before)
     else mret s_before);
  total_gold ←
    (if truthy tokens_after_payload
     then lift_outcome (py_get tokens_after_payload "interlinkGoldTokenAmount" g_before)
     else mret g_before);
  total_diamond ←
    (if truthy tokens_after_payload
     then lift_outcome (py_get tokens_after_payload "interlinkDiamondTokenAmount" d_before)
     else mret d_before);
  let history_entry :=
    {| timestamp := now_wib e;
       success := claim_successful;
       message := message_from_api_call;
       claimed_silver := if claim_successful then claimed_s else 0;
       claimed_gold := if claim_successful then claimed_g else 0;
       claimed_diamond := if claim_successful then claimed_d else 0;
       total_silver_after := total_silver;
       total_gold_after := total_gold;
       total_diamond_after := total_diamond |} in
  user_history ← load_claim_history user_id;
  save_claim_history user_id (user_history ++ [history_entry]);;
  mret (mkClaimResult claim_successful claimed_s claimed_g claimed_d
                      message_from_api_call status_code).

(** ** The manual claim, [core_claim_action] *)

Definition core_claim_action (e : env) (user_id : N) (chat_id : Z) : M world unit :=
  auth_token ← get_auth_token user_id;
  if negb (truthy auth_token) then send_message chat_id RTokenNotSet
  else
    let '(tokens_before_payload, msg_before) := api_get_token_info (http_info_before e) in
    if negb (truthy tokens_before_payload) then
      send_message chat_id (RBalanceBeforeFailed msg_before)
    else
      s_before ← lift_outcome (py_get tokens_before_payload "interlinkSilverTokenAmount" (JInt 0));
      g_before ← lift_outcome (py_get tokens_before_payload "interlinkGoldTokenAmount" (JInt 0));
      d_before ← lift_outcome (py_get tokens_before_payload "interlinkDiamondTokenAmount" (JInt 0));
      send_message chat_id RProcessing;;
      r ← claim_and_record e user_id s_before g_before d_before;
      send_message chat_id
        (RClaimResult (claim_successful r) (claimed_s r) (claimed_g r) (claimed_d r)
                      (message_from_api_call r));;
      if claim_successful r then send_message chat_id RCheckBalanceHint else mret tt.

(** ** The history view, [core_history_action] *)

(** [l[-n:]] for a positive [n]. *)
Definition last_slice {A} (n : nat) (l : list A) : list A := drop (length l - n) l.

(** [enumerate(l)]. *)
Definition enumerate {A} (l : list A) : list (nat * A) := imap (λ i x, (i, x)) l.

(** The entries the reply lists, each with its transaction number
    [len(user_history) - entry_idx]. *)
Definition history_shown (user_history : list history_entry) : list (nat * history_entry) :=
  (λ p, (length user_history - p.1, p.2)%nat) <$> enumerate (reverse (last_slice 10 user_history)).

Definition core_history_action (user_id : N) (chat_id : Z) : M world unit :=
  user_history ← load_claim_history user_id;
  match user_history with
  | [] => send_message chat_id RHistoryEmpty
  | _ =>
      send_message chat_id
        (RHistory (history_shown user_history)
                  (if (10 <? length user_history)%nat then Some (length user_history) else None))
  end.

(** ** One iteration of the loop of [auto_claim_task_function]

    The body of the [while] runs on a frame: the state of the process and
    the two local variables that outlive the [try] statement. *)

Record frame : Type := mkFrame {
  fw : world;
  user_data : dict;
  sleep_after_action_sec : Q;
}.

Definition in_world {A} (m : M world A) : M frame A :=
  λ f, let '(o, w') := m (fw f) in (o, mkFrame w' (user_data f) (sleep_after_action_sec f)).

Definition set_sleep (seconds : Q) : M frame unit :=
  modify (λ f, mkFrame (fw f) (user_data f) seconds).

(** [user_data["auto_claim_active"] = False; await save_user_data(user_id, user_data)]. *)
Definition deactivate_and_save (user_id : N) : M frame unit :=
  modify (λ f, mkFrame (fw f) (<["auto_claim_active" := JBool false]> (user_data f))
                       (sleep_after_action_sec f));;
  data ← gets user_data;
  in_world (save_user_data user_id data).

(** How the body of the [while] is left. *)
Inductive control : Type :=
| Fallthrough
| BreakLoop
| ContinueLoop.

Definition minutes_of (seconds : Q) : Z := py_int (seconds / 60).

(** Lines 621-707: the service says a claim is possible. *)
Definition claiming_branch (e : env) (user_id : N) : M frame control :=
  let '(tokens_before_payload_auto, msg_before_auto) :=
    api_get_token_info (http_info_before e) in
  if negb (truthy tokens_before_payload_auto) then
    in_world (send_message (Z.of_N user_id) NBalanceBeforeFailed);;
    pause ← in_world (random_uniform e (3 * 60) (7 * 60));
    in_world (asyncio_sleep pause);;
    mret ContinueLoop
  else
    s_before_auto ← lift_outcome
      (py_get tokens_before_payload_auto "interlinkSilverTokenAmount" (JInt 0));
    g_before_auto ← lift_outcome
      (py_get tokens_before_payload_auto "interlinkGoldTokenAmount" (JInt 0));
    d_before_auto ← lift_outcome
      (py_get tokens_before_payload_auto "interlinkDiamondTokenAmount" (JInt 0));
    in_world (send_message (Z.of_N user_id) NClaimDetected);;
    pause ← in_world (random_uniform e 5 15);
    in_world (asyncio_sleep pause);;
    r ← in_world (claim_and_record e user_id s_before_auto g_before_auto d_before_auto);
    stop ←
      (if claim_successful r then
         in_world (send_message (Z.of_N user_id)
           (NClaimSucceeded (claimed_s r) (claimed_g r) (claimed_d r)
                            (message_from_api_call r)));;
         mret false
       else
         in_world (send_message (Z.of_N user_id) (NClaimFailed (message_from_api_call r)));;
         if status_is 401 (status_code r) then
           in_world (send_message (Z.of_N user_id) NStoppedTokenInvalidOnClaim);;
           deactivate_and_save user_id;;
           mret true
         else mret false);
    if stop : bool then mret BreakLoop
    else
      next ← in_world (random_uniform e (5 * 60) (10 * 60));
      set_sleep next;;
      in_world (send_message (Z.of_N user_id) (NCycleDone (minutes_of next)));;
      mret Fallthrough.

(** Lines 709-741: the service answered, and no claim is possible yet. *)
Definition waiting_branch (e : env) (user_id : N) (claim_status_payload : json)
  : M frame control :=
  next_frame ← lift_outcome (py_get claim_status_payload "nextFrame" (JInt 0));
  next_frame_ms ← lift_outcome (as_int next_frame);
  if 0 <? next_frame_ms then
    let current_time_ms := time_ms e in
    let wait_time_ms := next_frame_ms - current_time_ms in
    let wait_time_sec := Qmax 0 (inject_Z wait_time_ms / 1000) in
    if Qlt_bool 0 wait_time_sec then
      let wait_hours := py_int wait_time_sec / 3600 in
      let rem_secs := py_int wait_time_sec mod 3600 in
      let wait_mins := rem_secs / 60 in
      let wait_secs_final := rem_secs mod 60 in
      let current_time_for_notification := time_sec e in
      last_notif_time ← in_world
        (gets (λ w, default 0%Q (LAST_LONG_WAIT_NOTIFICATION w !! user_id)));
      notify_user ←
        (if Qlt_bool (60 * 60 * 1) wait_time_sec then
           next ← in_world (random_uniform e (25 * 60) (35 * 60));
           set_sleep next;;
           mret (Qlt_bool (2 * 3600) (current_time_for_notification - last_notif_time))
         else if Qlt_bool (15 * 60) wait_time_sec then
           next ← in_world (random_uniform e (5 * 60) (10 * 60));
           set_sleep next;;
           mret (Qlt_bool (45 * 60) (current_time_for_notification - last_notif_time))
         else
           jitter ← in_world (random_uniform e 10 45);
           set_sleep (wait_time_sec + jitter);;
           mret true);
      (if notify_user : bool then
         in_world (send_message (Z.of_N user_id)
                     (NNextClaimIn wait_hours wait_mins wait_secs_final));;
         in_world (modify (with_LAST_LONG_WAIT_NOTIFICATION
                             <[user_id := current_time_for_notification]>))
       else mret tt);;
      mret Fallthrough
    else
      next ← in_world (random_uniform e 30 90);
      set_sleep next;;
      mret Fallthrough
  else
    planned ← gets sleep_after_action_sec;
    in_world (send_message (Z.of_N user_id) (NScheduleUnknown (minutes_of planned)));;
    mret Fallthrough.

(** Lines 742-748: the eligibility check gave no payload. *)
Definition failed_check_branch (e : env) (user_id : N) (msg_claim_stat : api_message)
    (status_code_check : option Z) : M frame control :=
  planned ← gets sleep_after_action_sec;
  in_world (send_message (Z.of_N user_id) (NCheckFailed msg_claim_stat (minutes_of planned)));;
  (if status_is 429 status_code_check then
     next ← in_world (random_uniform e (45 * 60) (75 * 60));
     set_sleep next;;
     in_world (send_message (Z.of_N user_id) (NRateLimited (minutes_of next)))
   else mret tt);;
  mret Fallthrough.

(** The suite of the [try]. *)
Definition iteration_try (e : env) (user_id : N) : M frame control :=
  current_auth_token ← in_world (get_auth_token user_id);
  if negb (truthy current_auth_token) then raise ValueError
  else
    let '(claim_status_payload, msg_claim_stat, status_code_check) :=
      api_check_claimable (http_check e) in
    if status_is 401 status_code_check then
      in_world (send_message (Z.of_N user_id) NStoppedTokenInvalidOnCheck);;
      deactivate_and_save user_id;;
      mret BreakLoop
    else
      is_claimable ←
        (if truthy claim_status_payload
         then flag ← lift_outcome (py_get claim_status_payload "isClaimable" JNull);
              mret (truthy flag)
         else mret false);
      if is_claimable : bool then claiming_branch e user_id
      else if truthy claim_status_payload then waiting_branch e user_id claim_status_payload
      else failed_check_branch e user_id msg_claim_stat status_code_check.

(** The [except] clauses, in the order of the source. *)
Definition iteration_except (e : env) (user_id : N) (ex : exn) : M frame control :=
  match ex with
  | ValueError =>
      in_world (send_message (Z.of_N user_id) NStoppedConfigError);;
      deactivate_and_save user_id;;
      mret BreakLoop
  | HTTPStatusError code =>
      in_world (send_message (Z.of_N user_id) (NHttpError code));;
      if code =? 401 then
        deactivate_and_save user_id;;
        in_world (send_message (Z.of_N user_id) NStoppedHttp401);;
        mret BreakLoop
      else if code =? 429 then
        next ← in_world (random_uniform e (45 * 60) (75 * 60));
        set_sleep next;;
        in_world (send_message (Z.of_N user_id) (NRateLimitedHttp (minutes_of next)));;
        mret Fallthrough
      else mret Fallthrough
  | TypeError | AttributeError =>
      in_world (send_message (Z.of_N user_id) (NUnexpectedError ex));;
      next ← in_world (random_uniform e (2 * 60) (5 * 60));
      set_sleep next;;
      mret Fallthrough
  end.

(** The body of the [while], up to and including the sleep that ends it. *)
Definition iteration (e : env) (user_id : N) : M frame control :=
  planned ← in_world (random_uniform e (5 * 60) (10 * 60));
  set_sleep planned;;
  c ← try_except (iteration_try e user_id) (iteration_except e user_id);
  match c with
  | Fallthrough =>
      seconds ← gets sleep_after_action_sec;
      in_world (asyncio_sleep seconds);;
      mret Fallthrough
  | BreakLoop | ContinueLoop => mret c
  end.

(** ** The task running [auto_claim_task_function] *)

Definition set_task_state (tid : nat) (s : task_state) : world → world :=
  with_tasks (alter (λ t, mkTask (owner t) s) tid).

(** Lines 777-779, after the loop. *)
Definition loop_epilogue (user_id : N) (w : world) : world :=
  with_LAST_LONG_WAIT_NOTIFICATION (delete user_id) (with_AUTO_CLAIM_TASKS (delete user_id) w).

(** The test of the [while], on the local [user_data]. *)
Definition loop_test (tid : nat) (user_id : N) (data : dict) (w : world) : world :=
  if auto_claim_active data
  then set_task_state tid (Suspended InRemoteCall data) w
  else set_task_state tid Finished (loop_epilogue user_id w).

(** Lines 590-602, before the loop. *)
Definition task_prologue (tid : nat) (user_id : N) (w : world) : world :=
  let auth_token := dict_get_none (default ∅ (user_data_files w !! user_id)) "auth_token" in
  if negb (truthy auth_token) then
    let w1 := with_sent (λ l, l ++ [(Z.of_N user_id, NTokenNotFound)]) w in
    let data := default ∅ (user_data_files w1 !! user_id) in
    let w2 := with_user_data_files
                <[user_id := <["auto_claim_active" := JBool false]> data]> w1 in
    set_task_state tid Finished w2
  else
    loop_test tid user_id (default ∅ (user_data_files w !! user_id)) w.

(** The event loop resumes task [tid] and runs it to its next sleep or to
    its end.  [e] holds the answers the task receives on the way. *)
Definition task_step (e : env) (tid : nat) (w : world) : world :=
  match tasks w !! tid with
  | None => w
  | Some t =>
      let user_id := owner t in
      match state t with
      | Created => task_prologue tid user_id w
      | Suspended InSleep _ =>
          loop_test tid user_id (default ∅ (user_data_files w !! user_id)) w
      | Suspended InRemoteCall data =>
          match iteration e user_id (mkFrame w data 0) with
          | (Returned Fallthrough, f) =>
              set_task_state tid (Suspended InSleep (user_data f)) (fw f)
          | (Returned ContinueLoop, f) => loop_test tid user_id (user_data f) (fw f)
          | (Returned BreakLoop, f) =>
              set_task_state tid Finished (loop_epilogue user_id (fw f))
          | (Raised _, f) => set_task_state tid Finished (fw f)
          end
      | Finished | Cancelled => w
      end
  end.

(** ** The registry handlers *)

(** [user_id in AUTO_CLAIM_TASKS and AUTO_CLAIM_TASKS[user_id] and not
    AUTO_CLAIM_TASKS[user_id].done()]. *)
Definition task_running (w : world) (user_id : N) : bool :=
  match AUTO_CLAIM_TASKS w !! user_id with
  | Some tid =>
      match tasks w !! tid with
      | Some t => negb (done t)
      | None => false
      end
  | None => false
  end.

(** [asyncio.create_task(auto_claim_task_function(user_id, ...))]. *)
Definition create_task (user_id : N) : M world nat :=
  λ w, (Returned (length (tasks w)), with_tasks (λ l, l ++ [mkTask user_id Created]) w).

(** [task_object.cancel()] followed by [await task_object]: the task takes
    [CancelledError] at the point where it is suspended; no clause of the
    loop catches it. *)
Definition cancel_and_await (tid : nat) : M world unit :=
  modify (set_task_state tid Cancelled).

Definition core_autoclaim_start (user_id : N) (chat_id : Z) : M world unit :=
  auth_token ← get_auth_token user_id;
  if negb (truthy auth_token) then send_message chat_id RStartNeedsToken
  else
    data ← load_user_data user_id;
    running ← gets (λ w, task_running w user_id);
    if auto_claim_active data && running then send_message chat_id RAlreadyActive
    else
      save_user_data user_id (<["auto_claim_active" := JBool true]> data);;
      new_task ← create_task user_id;
      modify (with_AUTO_CLAIM_TASKS <[user_id := new_task]>);;
      send_message chat_id RActivated.

Definition core_autoclaim_stop (user_id : N) (chat_id : Z) : M world unit :=
  data ← load_user_data user_id;
  let is_currently_active_in_data := auto_claim_active data in
  task_object ← gets (λ w, AUTO_CLAIM_TASKS w !! user_id);
  is_task_running ← gets (λ w, task_running w user_id);
  if negb is_currently_active_in_data && negb is_task_running then
    send_message chat_id RAlreadyInactive
  else
    save_user_data user_id (<["auto_claim_active" := JBool false]> data);;
    (if is_task_running : bool then
       match task_object with
       | Some tid => cancel_and_await tid
       | None => mret tt
       end
     else mret tt);;
    modify (with_AUTO_CLAIM_TASKS (delete user_id));;
    modify (with_LAST_LONG_WAIT_NOTIFICATION (delete user_id));;
    send_message chat_id RDeactivated.

(** The restart pass of [post_init] (lines 905-929) for one user whose
    file the directory listing returned. *)
Definition restart_user (user_id : N) : M world unit :=
  data ← load_user_data user_id;
  if truthy (dict_get_none data "auto_claim_active") then
    task_exists ← gets (λ w, bool_decide (is_Some (AUTO_CLAIM_TASKS w !! user_id)));
    is_task_done_or_none ← gets (λ w,
      match AUTO_CLAIM_TASKS w !! user_id with
      | Some tid => match tasks w !! tid with Some t => done t | None => true end
      | None => true
      end);
    if negb task_exists || is_task_done_or_none then
      new_task ← create_task user_id;
      modify (with_AUTO_CLAIM_TASKS <[user_id := new_task]>)
    else mret tt
  else mret tt.

(** ** File names of the user records and the restart pass of [post_init] *)

(** [f"{user_id}.json"], the name [get_user_data_file] gives the record
    inside [USER_DATA_DIR]. *)
Definition get_user_data_file (user_id : N) : string :=
  NilZero.string_of_uint (N.to_uint user_id) +:+ ".json".

(** [s.endswith(suffix)]. *)
Fixpoint endswith (s suffix : string) : bool :=
  if String.eqb s suffix then true
  else match s with
       | EmptyString => false
       | String _ rest => endswith rest suffix
       end.

(** [s.split(".")[0]]. *)
Fixpoint first_field (s : string) : string :=
  match s with
  | EmptyString => EmptyString
  | String c rest => if Ascii.eqb c "." then EmptyString else String c (first_field rest)
  end.

Definition is_digit (c : ascii) : bool :=
  (48 <=? nat_of_ascii c)%nat && (nat_of_ascii c <=? 57)%nat.

Fixpoint all_digits (s : string) : bool :=
  match s with
  | EmptyString => true
  | String c rest => is_digit c && all_digits rest
  end.

(** [s.isdigit()]. *)
Definition isdigit (s : string) : bool :=
  match s with
  | EmptyString => false
  | _ => all_digits s
  end.

(** [int(s)] on a string of digits. *)
Definition int_of_digits (s : string) : outcome N :=
  match NilZero.uint_of_string s with
  | Some d => Returned (N.of_uint d)
  | None => Raised ValueError
  end.

(** [os.listdir(USER_DATA_DIR)]: one name per stored record. *)
Definition os_listdir (w : world) : list string :=
  get_user_data_file <$> (map_to_list (user_data_files w)).*1.

(** [for x in l: body], where [continue] is simply the end of [body]. *)
Fixpoint for_each {S A} (l : list A) (body : A → M S unit) : M S unit :=
  match l with
  | [] => mret tt
  | x :: rest => body x;; for_each rest body
  end.

(** The body of the loop of [post_init] over the directory listing. *)
Definition restart_from_file (filename : string) : M world unit :=
  if endswith filename ".json" then
    try_except
      (let user_id_str := first_field filename in
       if negb (isdigit user_id_str) then mret tt
       else
         user_id ← lift_outcome (int_of_digits user_id_str);
         restart_user user_id)
      (λ _, mret tt)
  else mret tt.

Definition post_init (listing : list string) : M world unit :=
  for_each listing restart_from_file.

(** ** Vocabulary of the statements *)

Definition history_of (w : world) (user_id : N) : list history_entry :=
  default [] (claim_history_files w !! user_id).

Definition stored_user_data (w : world) (user_id : N) : dict :=
  default ∅ (user_data_files w !! user_id).

(** The user has a stored credential: [get_auth_token] is not falsy. *)
Definition has_credential (w : world) (user_id : N) : bool :=
  truthy (dict_get_none (stored_user_data w user_id) "auth_token").

(** The persisted [auto_claim_active] flag, read as the code reads it. *)
Definition persisted_active (w : world) (user_id : N) : bool :=
  auto_claim_active (stored_user_data w user_id).

(** The three amounts read from the balance payload before the claim, when
    the payload lets the action go on to the claim. *)
Definition amounts_of (payload : json) (default_s default_g default_d : json)
  : option (json * json * json) :=
  match payload with
  | JDict d =>
      if dict_truthy d then
        Some (dict_get d "interlinkSilverTokenAmount" default_s,
              dict_get d "interlinkGoldTokenAmount" default_g,
              dict_get d "interlinkDiamondTokenAmount" default_d)
      else None
  | _ => None
  end.

Definition before_amounts (e : env) : option (json * json * json) :=
  amounts_of (api_get_token_info (http_info_before e)).1 (JInt 0) (JInt 0) (JInt 0).

Definition after_amounts (e : env) : option (json * json * json) :=
  amounts_of (api_get_token_info (http_info_after e)).1 (JInt 0) (JInt 0) (JInt 0).

(** The post-claim balance query returned no payload. *)
Definition no_payload_after (e : env) : bool :=
  negb (truthy (api_get_token_info (http_info_after e)).1).

(** The claim response is present and its ["data"] entry is the boolean
    [True]. *)
Definition claim_data_is_true (e : env) : bool :=
  match (http_claim e).1 with
  | Some d => match d !! "data" with Some (JBool true) => true | _ => false end
  | None => false
  end.

(** The eligibility check lets the iteration go on to the claim. *)
Definition check_says_claimable (e : env) : bool :=
  let '(payload, _, status) := api_check_claimable (http_check e) in
  negb (status_is 401 status)
  && match payload with
     | JDict d => dict_truthy d && truthy (dict_get_none d "isClaimable")
     | _ => false
     end.

(** The history of the user after a manual claim and after an iteration of
    the loop. *)
Definition manual_history (e : env) (user_id : N) (chat_id : Z) (w : world)
  : list history_entry :=
  history_of (core_claim_action e user_id chat_id w).2 user_id.

Definition auto_history (e : env) (user_id : N) (data : dict) (w : world)
  : list history_entry :=
  history_of (fw (iteration e user_id (mkFrame w data 0)).2) user_id.

(** All three recorded gains are zero. *)
Definition zero_gains (x : history_entry) : Prop :=
  claimed_silver x = 0 ∧ claimed_gold x = 0 ∧ claimed_diamond x = 0.

(** The message and the status code that [api_claim_airdrop] returns. *)
Definition claim_message (e : env) : api_message := (api_claim_airdrop (http_claim e)).1.2.

Definition claim_status (e : env) : option Z := (api_claim_airdrop (http_claim e)).2.

(** The state once entry [x] is appended to the history of the user. *)
Definition record_entry (user_id : N) (x : history_entry) (w : world) : world :=
  with_claim_history_files <[user_id := history_of w user_id ++ [x]]> w.


(** The action appended at most one entry to the history of the user and
    touched no other history. *)
Definition appends_at_most_one (user_id : N) (w w' : world) : Prop :=
  claim_history_files w' = claim_history_files w
  ∨ ∃ x, claim_history_files w'
         = <[user_id := history_of w user_id ++ [x]]> (claim_history_files w).

(** Appending is monotonic: the history of the user after the action is the
    history before it, in the same order and whatever its length, followed
    by at most one new entry; the histories of the other users are
    untouched. *)
Definition history_grows (user_id : N) (w w' : world) : Prop :=
  (history_of w' user_id = history_of w user_id
   ∨ ∃ x, history_of w' user_id = history_of w user_id ++ [x])
  ∧ ∀ other, other ≠ user_id → history_of w' other = history_of w other.

(** What the eligibility check told the iteration, when it answered with a
    usable payload: whether a claim is possible, and the ["nextFrame"]
    entry (0 when absent). *)
Definition eligibility_of (e : env) : option (bool * json) :=
  let '(payload, _, status) := api_check_claimable (http_check e) in
  if status_is 401 status then None
  else match payload with
       | JDict d =>
           if dict_truthy d
           then Some (truthy (dict_get_none d "isClaimable"), dict_get d "nextFrame" (JInt 0))
           else None
       | _ => None
       end.

(** The state of task [tid], if there is such a task. *)
Definition task_state_of (w : world) (tid : nat) : option task_state :=
  state <$> tasks w !! tid.


(** The sleep of a waiting iteration as the code computes it, a function of
    [next_eligible_at - now] and of two values of [random()]: [r0], drawn
    when the iteration starts, and [r1], drawn in the bucket. *)
Definition bucket_sleep (next_eligible_at now_ms : Z) (r0 r1 : Q) : Q :=
  let remaining_ms := next_eligible_at - now_ms in
  if next_eligible_at <=? 0 then uniform (5 * 60) (10 * 60) r0
  else if 3600000 <? remaining_ms then uniform (25 * 60) (35 * 60) r1
  else if 900000 <? remaining_ms then uniform (5 * 60) (10 * 60) r1
  else if 0 <? remaining_ms then (inject_Z remaining_ms / 1000 + uniform 10 45 r1)%Q
  else uniform 30 90 r1.

(** The number of tasks of the user that are not done, registered or not. *)
Definition live_tasks_of (w : world) (user_id : N) : nat :=
  length (filter (λ t, owner t = user_id ∧ done t = false) (tasks w)).

(** The number of tasks of the user among the tasks [new]. *)
Definition spawned_for (user_id : N) (new : list task) : nat :=
  length (filter (λ t, owner t = user_id) new).

(** Every handle of the registry is a task that was created for the user
    it is registered under. *)
Definition registry_wf (w : world) : Prop :=
  ∀ user_id tid, AUTO_CLAIM_TASKS w !! user_id = Some tid →
                 ∃ t, tasks w !! tid = Some t ∧ owner t = user_id.

(** The user is flagged active in the persisted state and has no live
    handle in the registry. *)
Definition needs_restart (w : world) (user_id : N) : bool :=
  persisted_active w user_id && negb (task_running w user_id).

(** The state after a fresh task was created for the user and registered. *)
Definition with_new_task (user_id : N) (w : world) : world :=
  with_AUTO_CLAIM_TASKS <[user_id := length (tasks w)]>
    (with_tasks (λ l, l ++ [mkTask user_id Created]) w).

(** ** Sample inputs *)

Definition sample_user : N := 7001.

Definition token_record (active : option bool) : dict :=
  match active with
  | Some b => <["auto_claim_active" := JBool b]> {["auth_token" := JStr "eyJhbGciOiJIUzI1NiJ9"]}
  | None => {["auth_token" := JStr "eyJhbGciOiJIUzI1NiJ9"]}
  end.

Definition balances (s g d : Z) : dict :=
  <["interlinkSilverTokenAmount" := JInt s]>
    (<["interlinkGoldTokenAmount" := JInt g]>
       {["interlinkDiamondTokenAmount" := JInt d]}).

(** An HTTP 200 answer [{"data": payload}]. *)
Definition ok_response (payload : json) : http_result :=
  (Some {["data" := payload]}, Some 200).

(** An answer with the given status and a server message. *)
Definition error_response (status : Z) (text : string) : http_result :=
  (Some {["message" := JStr text]}, Some status).

Definition eligibility (claimable : bool) (next_frame : Z) : dict :=
  <["isClaimable" := JBool claimable]> {["nextFrame" := JInt next_frame]}.

(** A process holding the record of [sample_user] only. *)
Definition world_of (active : option bool) : world :=
  mkWorld {[sample_user := token_record active]} ∅ ∅ ∅ [] [] [] 0.

(** The balance drops from 10 to 5 silver across a successful claim. *)
Definition env_balance_drop : env :=
  mkEnv (ok_response (JDict (eligibility true 0)))
        (ok_response (JDict (balances 10 0 0)))
        (ok_response (JBool true))
        (ok_response (JDict (balances 5 0 0)))
        1700000000000 1700000000 "2023-11-15 05:13:20 WIB" (λ _, 1 # 2)%Q.

(** The balance rises from 10 to 15 silver across a successful claim. *)
Definition env_balance_gain : env :=
  mkEnv (ok_response (JDict (eligibility true 0)))
        (ok_response (JDict (balances 10 2 1)))
        (ok_response (JBool true))
        (ok_response (JDict (balances 15 2 1)))
        1700000000000 1700000000 "2023-11-15 05:13:20 WIB" (λ _, 1 # 2)%Q.


(** The claim is refused as too early. *)
Definition env_too_early : env :=
  mkEnv (ok_response (JDict (eligibility true 0)))
        (ok_response (JDict (balances 10 2 1)))
        (error_response 400 "TOKEN_CLAIM_TOO_EARLY")
        (ok_response (JDict (balances 10 2 1)))
        1700000000000 1700000000 "2023-11-15 05:13:20 WIB" (λ _, 1 # 2)%Q.

(** A live task of [sample_user], registered, in the middle of an
    iteration. *)
Definition world_in_iteration : world :=
  mkWorld {[sample_user := token_record (Some true)]} ∅ {[sample_user := 0%nat]} ∅
          [mkTask sample_user (Suspended InRemoteCall (token_record (Some true)))]
          [] [] 0.


(** The eligibility check is answered with the given HTTP error. *)
Definition env_check_error (status : Z) (text : string) : env :=
  mkEnv (error_response status text)
        (None, None) (None, None) (None, None)
        1700000000000 1700000000 "2023-11-15 05:13:20 WIB" (λ _, 1 # 2)%Q.

(** The persisted flag is off and a live task is still registered. *)
Definition world_desynced : world :=
  mkWorld {[sample_user := token_record (Some false)]} ∅ {[sample_user := 0%nat]} ∅
          [mkTask sample_user (Suspended InSleep (token_record (Some true)))]
          [] [] 0.

(** The process at boot: no task yet; two users flagged active and one
    flagged inactive in the persisted state. *)
Definition world_at_boot : world :=
  mkWorld (<[7001%N := token_record (Some true)]>
             (<[7002%N := token_record (Some true)]>
                {[7003%N := token_record (Some false)]}))
          ∅ ∅ ∅ [] [] [] 0.

(** * Further parts of the program

    The HTTP layer under the wrappers, the profile wrapper, the handlers
    that answer a status query, [/settoken], and the shutdown hook of
    [app.py]. *)

(** ** The HTTP layer, [make_api_request]

    What the HTTP client did is an input: it answered with a status code and
    a body, or the request timed out, failed, or stopped on another error.
    A body that decodes as JSON decodes to an object.  Which status codes
    make [raise_for_status] raise belongs to the client library and is a
    parameter. *)

Inductive response_body : Type :=
| BodyEmpty
| BodyJson (d : dict)
| BodyText (text : string).

Inductive transport : Type :=
| Responded (status : Z) (body : response_body)
| TimedOut
| RequestFailed (why : string)
| Crashed (why : string).

Definition upper_char (c : ascii) : ascii :=
  let n := nat_of_ascii c in
  if (97 <=? n)%nat && (n <=? 122)%nat then ascii_of_nat (n - 32) else c.

(** [s.upper()], on ASCII. *)
Fixpoint upper (s : string) : string :=
  match s with
  | EmptyString => EmptyString
  | String c rest => String (upper_char c) (upper rest)
  end.

(** [{"error_message": text}]. *)
Definition error_dict (text : string) : dict := {["error_message" := JStr text]}.

(** The stand-in for an empty body of a successful response. *)
Definition empty_success : dict :=
  <["status" := JStr "success"]>
    (<["message" := JStr "Respons kosong dari server."]> {["data_from_api" := JNull]}).

Definition make_api_request (raises_for_status : Z → bool) (method : string)
    (t : transport) : http_result :=
  if String.eqb (upper method) "GET" || String.eqb (upper method) "POST" then
    match t with
    | Responded status body =>
        if raises_for_status status then
          match body with
          | BodyJson error_json => (Some error_json, Some status)
          | BodyEmpty =>
              (Some (<["status_code_custom" := JInt status]> (error_dict "")), Some status)
          | BodyText text =>
              (Some (<["status_code_custom" := JInt status]> (error_dict text)), Some status)
          end
        else
          match body with
          | BodyEmpty => (Some empty_success, Some status)
          | BodyJson d => (Some d, Some status)
          | BodyText text =>
              (Some (<["raw_response" := JStr (substring 0 200 text)]>
                       (error_dict "Format respons dari API tidak valid (bukan JSON).")),
               Some status)
          end
    | TimedOut => (Some (error_dict "Request ke API timeout."), None)
    | RequestFailed why => (Some (error_dict ("Gagal terhubung ke API: " +:+ why)), None)
    | Crashed why => (Some (error_dict ("Unexpected API error: " +:+ why)), None)
    end
  else (None, None).

Definition api_get_user_profile (r : http_result) : json * api_message :=
  let '(data, status) := r in
  match data with
  | Some d =>
      if dict_truthy d && status_is 200 status && dict_has d "data" then
        (dict_get_none d "data", message_or d "Profil berhasil dimuat.")
      else if dict_truthy d && dict_has d "message" then
        (JNull, MsgFailed "Gagal" (dict_get_none d "message") status)
      else if dict_truthy d && dict_has d "error_message" then
        (JNull, MsgError "Error API" (dict_get_none d "error_message"))
      else
        (JNull, MsgText "Gagal memuat profil. Respons tidak diketahui dari server.")
  | None =>
      (JNull, MsgText "Gagal memuat profil. Respons tidak diketahui dari server.")
  end.

(** ** The handlers that only answer

    These handlers hand texts to the chat and, [set_token_command] apart,
    write nothing.  Their texts are the values of [reply]; a session is the
    state of the process together with the texts handed out so far. *)

Inductive reply : Type :=
(* core_autoclaim_status *)
| ReportActive
| ReportDesynced
| ReportInactive
(* core_claim_status_action *)
| StatusTokenNotSet
| StatusChecking
| StatusClaimable
| StatusNextIn (next_frame : json) (hours minutes seconds : Z)
| StatusOverdue (next_frame : json)
| StatusNoSchedule
| StatusFailed (m : api_message)
(* set_token_command *)
| TokenUsage
| TokenBadFormat
| TokenSaved
| TokenVerifying
| TokenVerified (username email : json)
| TokenVerificationFailed (m : api_message).

Record session : Type := mkSession {
  sworld : world;
  said : list reply;
}.

Definition in_session {A} (m : M world A) : M session A :=
  λ s, let '(o, w') := m (sworld s) in (o, mkSession w' (said s)).

Definition say (text : reply) : M session unit :=
  modify (λ s, mkSession (sworld s) (said s ++ [text])).

Definition core_autoclaim_status (user_id : N) : M session unit :=
  data ← in_session (load_user_data user_id);
  let is_active_in_data := auto_claim_active data in
  running ← in_session (gets (λ w, task_running w user_id));
  if is_active_in_data && running then say ReportActive
  else if is_active_in_data && negb running then say ReportDesynced
  else say ReportInactive.

Definition core_claim_status_action (e : env) (user_id : N) : M session unit :=
  auth_token ← in_session (get_auth_token user_id);
  if negb (truthy auth_token) then say StatusTokenNotSet
  else
    say StatusChecking;;
    let '(claim_status_payload, message, _) := api_check_claimable (http_check e) in
    if truthy claim_status_payload then
      is_claimable ← lift_outcome (py_get claim_status_payload "isClaimable" (JBool false));
      next_frame_ms ← lift_outcome (py_get claim_status_payload "nextFrame" (JInt 0));
      if truthy is_claimable then say StatusClaimable
      else
        next_frame ← lift_outcome (as_int next_frame_ms);
        if 0 <? next_frame then
          let current_time_ms := time_ms e in
          let wait_time_ms := next_frame - current_time_ms in
          if 0 <? wait_time_ms then
            let total := py_int (inject_Z wait_time_ms / 1000) in
            let hours := total / 3600 in
            let remainder := total mod 3600 in
            say (StatusNextIn next_frame_ms hours (remainder / 60) (remainder mod 60))
          else say (StatusOverdue next_frame_ms)
        else say StatusNoSchedule
    else say (StatusFailed message).

(** [set_token_command]; [profile] is what the verification call returned. *)
Definition set_token_command (profile : http_result) (user_id : N) (chat_id : Z)
    (args : list string) : M session unit :=
  if (chat_id =? 0) || (user_id =? 0)%N then mret tt
  else
    match args with
    | [] => say TokenUsage
    | token :: _ =>
        if negb (String.prefix "ey" token) then say TokenBadFormat
        else
          data ← in_session (load_user_data user_id);
          in_session (save_user_data user_id (<["auth_token" := JStr token]> data));;
          say TokenSaved;;
          say TokenVerifying;;
          let '(profile_data, message) := api_get_user_profile profile in
          if truthy profile_data then
            username ← lift_outcome (py_get profile_data "username" (JStr "N/A"));
            email ← lift_outcome (py_get profile_data "email" (JStr "N/A"));
            say (TokenVerified username email)
          else say (TokenVerificationFailed message)
    end.

(** ** Shutdown, [cleanup_after_shutdown] of [app.py] *)

(** [task.cancel()], awaited: a task that is done stays as it is. *)
Definition cancel_if_live (tid : nat) (w : world) : world :=
  match tasks w !! tid with
  | Some t => if done t then w else set_task_state tid Cancelled w
  | None => w
  end.

Definition cleanup_after_shutdown (w : world) : world :=
  if Nat.eqb (size (AUTO_CLAIM_TASKS w)) 0 then w
  else
    let handles := (map_to_list (AUTO_CLAIM_TASKS w)).*2 in
    with_AUTO_CLAIM_TASKS (λ _, ∅) (foldr cancel_if_live w handles).

(** ** Vocabulary of the further properties *)

(** The invariant of the scheduler: the registry is well formed, and every
    task that is not done is the registered handle of its user, whose
    persisted flag is on. *)
Definition scheduler_inv (w : world) : Prop :=
  registry_wf w
  ∧ ∀ tid t, tasks w !! tid = Some t → done t = false →
             AUTO_CLAIM_TASKS w !! owner t = Some tid
             ∧ persisted_active w (owner t) = true.

(** One step of the process: a handler runs to its end, the event loop
    resumes a task up to its next suspension, the restart pass runs over a
    directory listing, or the shutdown hook runs.  The answers of the
    service, the clock, the listing and the chat arguments are arbitrary. *)
Inductive step (w : world) : world → Prop :=
| StepStart (user_id : N) (chat_id : Z) :
    step w (core_autoclaim_start user_id chat_id w).2
| StepStop (user_id : N) (chat_id : Z) :
    step w (core_autoclaim_stop user_id chat_id w).2
| StepStatus (user_id : N) (said0 : list reply) :
    step w (sworld (core_autoclaim_status user_id (mkSession w said0)).2)
| StepClaimStatus (e : env) (user_id : N) (said0 : list reply) :
    step w (sworld (core_claim_status_action e user_id (mkSession w said0)).2)
| StepClaim (e : env) (user_id : N) (chat_id : Z) :
    step w (core_claim_action e user_id chat_id w).2
| StepHistory (user_id : N) (chat_id : Z) :
    step w (core_history_action user_id chat_id w).2
| StepSetToken (profile : http_result) (user_id : N) (chat_id : Z)
    (args : list string) (said0 : list reply) :
    step w (sworld (set_token_command profile user_id chat_id args (mkSession w said0)).2)
| StepTask (e : env) (tid : nat) :
    step w (task_step e tid w)
| StepPostInit (listing : list string) :
    step w (post_init listing w).2
| StepCleanup :
    step w (cleanup_after_shutdown w).

(** The process as it starts: nothing is scheduled yet. *)
Definition fresh_process (w : world) : Prop :=
  tasks w = [] ∧ AUTO_CLAIM_TASKS w = ∅.

(** The client obtained no response; [failure_text] is the text
    [make_api_request] puts under ["error_message"] then. *)
Definition no_response (t : transport) : bool :=
  match t with Responded _ _ => false | _ => true end.

Definition failure_text (t : transport) : string :=
  match t with
  | Responded _ _ => ""
  | TimedOut => "Request ke API timeout."
  | RequestFailed why => "Gagal terhubung ke API: " +:+ why
  | Crashed why => "Unexpected API error: " +:+ why
  end.

(** The text of the last branch of [api_claim_airdrop]. *)
Definition empty_response_completion : api_message :=
  MsgText "Proses klaim selesai dengan respons kosong dari server. Silakan periksa status token Anda.".

(** The service says a claim is possible and the balance query before the
    claim has an internal error. *)
Definition env_balance_unread : env :=
  mkEnv (ok_response (JDict (eligibility true 0)))
        (error_response 500 "Internal Server Error")
        (ok_response (JBool true))
        (ok_response (JDict (balances 10 2 1)))
        1700000000000 1700000000 "2023-11-15 05:13:20 WIB" (λ _, 1 # 2)%Q.

(** The eligibility check answers with [nextFrame: null]. *)
Definition env_next_frame_null : env :=
  mkEnv (ok_response (JDict (<["isClaimable" := JBool false]> {["nextFrame" := JNull]})))
        (None, None) (None, None) (None, None)
        1700000000000 1700000000 "2023-11-15 05:13:20 WIB" (λ _, 1 # 2)%Q.

(** A task in the middle of an iteration whose user's record has lost its
    token. *)
Definition world_token_removed : world :=
  mkWorld {[sample_user := {["auto_claim_active" := JBool true]}]} ∅ {[sample_user := 0%nat]} ∅
          [mkTask sample_user (Suspended InRemoteCall (token_record (Some true)))]
          [] [] 0.


(** A user flagged active whose record holds no token, at boot. *)
Definition world_flag_without_token : world :=
  mkWorld {[sample_user := {["auto_claim_active" := JBool true]}]} ∅ ∅ ∅ [] [] [] 0.




(** ** Tactics *)

(** Unfold the monad's operations and compute, leaving the Python
    predicates folded. *)
Ltac mrun :=
  repeat progress (
    unfold mbind, mret, M_bind, M_ret, lift_outcome, gets, modify, raise,
      get_auth_token, load_user_data, deactivate_and_save, in_world, set_sleep;
    cbn -[dict_truthy dict_get dict_get_none uniform Qlt_bool Qmax
          minutes_of py_int]).

(** The same for the handlers that run on a session. *)
Ltac srun :=
  repeat progress (
    unfold mbind, mret, M_bind, M_ret, lift_outcome, gets, modify, raise,
      get_auth_token, load_user_data, save_user_data, in_session, say;
    cbn -[dict_truthy dict_get dict_get_none uniform Qlt_bool Qmax
          minutes_of py_int api_get_user_profile api_check_claimable String.prefix]).

(** Close a leaf of the case analysis of an iteration: the iteration
    returned, and when it goes on its last sleep is within the bounds.
    [Hu] bounds [uniform], [Hlt] and [Hge] read the comparisons. *)
Ltac sleep_leaf Hu Hlt Hge :=
  eexists _, _; split; [reflexivity|]; intros ?; try done;
  (exists [] + eexists [_]); eexists; cbn;
  (split; [rewrite <- ?app_assoc; reflexivity|]);
  repeat match goal with
    | H : Qlt_bool _ _ = true |- _ => apply Hlt in H
    | H : Qlt_bool _ _ = false |- _ => apply Hge in H
    end;
  repeat match goal with
    | |- context [uniform ?a ?b (rand ?e ?n)] =>
        let H := fresh in
        assert (H : (a <= uniform a b (rand e n) <= b)%Q) by (apply Hu; lra);
        generalize dependent (uniform a b (rand e n)); intros
    end;
  lra.

(** * Properties *)

(** ** The claim response *)

Lemma dict_truthy_lookup (d : dict) k j : d !! k = Some j → dict_truthy d = true.
Proof.
  intros H. unfold dict_truthy. destruct (size d) eqn:Hs; [|done].
  apply map_size_empty_iff in Hs. subst d. by rewrite lookup_empty in H.
Qed.

Lemma claim_succeeded_spec (d : dict) :
  claim_succeeded (Some d)
  = match d !! "data" with Some (JBool true) => true | _ => false end.
Proof.
  unfold claim_succeeded, dict_get_none, dict_get.
  destruct (d !! "data") as [j|] eqn:Hd; simpl.
  - rewrite (dict_truthy_lookup _ _ _ Hd). by destruct j as [|[]| | | |].
  - by rewrite andb_false_r.
Qed.

Lemma api_claim_airdrop_payload (r : http_result) : (api_claim_airdrop r).1.1 = r.1.
Proof.
  destruct r as [[d|] st]; simpl; [|done].
  repeat (match goal with |- context [if ?b then _ else _] => destruct b end; simpl); done.
Qed.


Lemma claim_succeeded_data (e : env) :
  claim_succeeded (api_claim_airdrop (http_claim e)).1.1 = claim_data_is_true e.
Proof.
  rewrite api_claim_airdrop_payload. unfold claim_data_is_true.
  destruct (http_claim e).1 as [d|]; [apply claim_succeeded_spec | done].
Qed.

Lemma claim_and_record_failed (e : env) (user_id : N)
    (s_before g_before d_before : json) (w : world) :
  claim_data_is_true e = false →
  claim_and_record e user_id s_before g_before d_before w
  = (Returned (mkClaimResult false 0 0 0 (claim_message e) (claim_status e)),
     record_entry user_id
       (mkEntry (now_wib e) false (claim_message e) 0 0 0 s_before g_before d_before) w).
Proof.
  intros H. rewrite <- claim_succeeded_data in H.
  unfold claim_and_record, claim_message, claim_status, record_entry.
  destruct (api_claim_airdrop (http_claim e)) as [[resp m] c]. simpl in H.
  by rewrite H.
Qed.

Lemma claim_and_record_unverified (e : env) (user_id : N)
    (s_before g_before d_before : json) (w : world) :
  claim_data_is_true e = true → no_payload_after e = true →
  claim_and_record e user_id s_before g_before d_before w
  = (Returned (mkClaimResult true 0 0 0 (MsgUnverified (claim_message e))
                             (claim_status e)),
     record_entry user_id
       (mkEntry (now_wib e) true (MsgUnverified (claim_message e)) 0 0 0
                s_before g_before d_before) w).
Proof.
  intros H Hno. rewrite <- claim_succeeded_data in H.
  unfold no_payload_after in Hno. apply negb_true_iff in Hno.
  unfold claim_and_record, claim_message, claim_status, record_entry.
  destruct (api_claim_airdrop (http_claim e)) as [[resp m] c]. simpl in H.
  rewrite H.
  destruct (api_get_token_info (http_info_after e)) as [after m']. simpl in Hno.
  rewrite Hno. mrun. by rewrite Hno.
Qed.

Lemma claim_and_record_verified (e : env) (user_id : N)
    (s_before g_before d_before : json) (w : world)
    (after : dict) (sa ga da sb gb db : Z) :
  claim_data_is_true e = true →
  (api_get_token_info (http_info_after e)).1 = JDict after →
  dict_truthy after = true →
  as_int (dict_get after "interlinkSilverTokenAmount" (JInt 0)) = Returned sa →
  as_int (dict_get after "interlinkGoldTokenAmount" (JInt 0)) = Returned ga →
  as_int (dict_get after "interlinkDiamondTokenAmount" (JInt 0)) = Returned da →
  as_int s_before = Returned sb →
  as_int g_before = Returned gb →
  as_int d_before = Returned db →
  claim_and_record e user_id s_before g_before d_before w
  = (Returned (mkClaimResult true (sa - sb) (ga - gb) (da - db) (claim_message e)
                             (claim_status e)),
     record_entry user_id
       (mkEntry (now_wib e) true (claim_message e) (sa - sb) (ga - gb) (da - db)
                (dict_get after "interlinkSilverTokenAmount" s_before)
                (dict_get after "interlinkGoldTokenAmount" g_before)
                (dict_get after "interlinkDiamondTokenAmount" d_before)) w).
Proof.
  intros H Ha Ht Hsa Hga Hda Hsb Hgb Hdb. rewrite <- claim_succeeded_data in H.
  unfold claim_and_record, claim_message, claim_status, record_entry.
  destruct (api_claim_airdrop (http_claim e)) as [[resp m] c]. simpl in H.
  rewrite H.
  destruct (api_get_token_info (http_info_after e)) as [p m']. simpl in Ha. subst p.
  mrun. rewrite Ht. mrun. unfold py_sub. rewrite Hsa, Hga, Hda, Hsb, Hgb, Hdb. mrun.
  by rewrite Ht.
Qed.

(** Whatever the answers: the block either appends one entry whose
    [success] is the decision on the claim response, or raises one of the
    two run-time errors and leaves the state as it was. *)
Lemma claim_and_record_shape (e : env) (user_id : N)
    (s_before g_before d_before : json) (w : world) :
  (∃ r x, claim_and_record e user_id s_before g_before d_before w
          = (Returned r, record_entry user_id x w)
          ∧ success x = claim_data_is_true e
          ∧ claim_successful r = claim_data_is_true e
          ∧ status_code r = claim_status e
          ∧ (claim_data_is_true e = false → zero_gains x))
  ∨ (∃ ex, claim_and_record e user_id s_before g_before d_before w = (Raised ex, w)
           ∧ (ex = TypeError ∨ ex = AttributeError)
           ∧ claim_data_is_true e = true).
Proof.
  destruct (claim_data_is_true e) eqn:H.
  2:{ left. eexists _, _. split; [by apply claim_and_record_failed|]. by repeat split. }
  destruct (no_payload_after e) eqn:Hno.
  { left. eexists _, _. split; [by apply claim_and_record_unverified|].
    repeat split; done. }
  rewrite <- claim_succeeded_data in H.
  unfold no_payload_after in Hno. apply negb_false_iff in Hno.
  unfold claim_and_record, claim_status, record_entry.
  destruct (api_claim_airdrop (http_claim e)) as [[resp m] c]. simpl in H.
  rewrite H.
  destruct (api_get_token_info (http_info_after e)) as [p m']. simpl in Hno.
  rewrite Hno.
  destruct p as [| | | | |after]; try (right; eexists; by eauto).
  mrun.
  unfold py_sub.
  assert (Hex : ∀ j ex, as_int j = Raised ex → ex = TypeError).
  { intros [] ex; simpl; congruence. }
  repeat match goal with
    | |- context [as_int ?j] =>
        let E := fresh "E" in
        destruct (as_int j) as [?|?] eqn:E;
        [|apply Hex in E; subst; right; eexists; mrun; by eauto]
    end.
  left. mrun. simpl in Hno. rewrite Hno. eexists _, _.
  split; [reflexivity|]. by repeat split.
Qed.

(** ** The two callers of the claim block *)

Lemma has_credential_token (w : world) (user_id : N) :
  has_credential w user_id = true →
  get_auth_token user_id w
  = (Returned (dict_get_none (stored_user_data w user_id) "auth_token"), w)
  ∧ truthy (dict_get_none (stored_user_data w user_id) "auth_token") = true.
Proof. intros H. split; [reflexivity | exact H]. Qed.

Lemma amounts_of_dict (payload : json) (a b c x y z : json) :
  amounts_of payload a b c = Some (x, y, z) →
  ∃ d, payload = JDict d ∧ dict_truthy d = true
       ∧ x = dict_get d "interlinkSilverTokenAmount" a
       ∧ y = dict_get d "interlinkGoldTokenAmount" b
       ∧ z = dict_get d "interlinkDiamondTokenAmount" c.
Proof.
  unfold amounts_of. destruct payload as [| | | | |d]; try done.
  destruct (dict_truthy d) eqn:Ht; [|done].
  intros [= <- <- <-]. by exists d.
Qed.

Lemma manual_history_block (e : env) (user_id : N) (chat_id : Z) (w : world)
    (sb gb db : json) :
  has_credential w user_id = true →
  before_amounts e = Some (sb, gb, db) →
  ∃ w1, claim_history_files w1 = claim_history_files w
        ∧ manual_history e user_id chat_id w
          = history_of (claim_and_record e user_id sb gb db w1).2 user_id.
Proof.
  intros Hc Hb. apply amounts_of_dict in Hb as (d & Hp & Ht & -> & -> & ->).
  exists (with_sent (λ l, l ++ [(chat_id, RProcessing)]) w). split; [done|].
  unfold manual_history, core_claim_action.
  unfold has_credential, stored_user_data in Hc.
  destruct (api_get_token_info (http_info_before e)) as [p m]. simpl in Hp. subst p.
  mrun. rewrite Hc. mrun. rewrite Ht. mrun.
  match goal with |- context [claim_and_record ?a ?b ?c ?d ?f ?g] =>
    destruct (claim_and_record_shape a b c d f g)
      as [(r & x & -> & _) | (ex & -> & _)] end.
  - mrun. by destruct (claim_successful r).
  - done.
Qed.

Lemma check_says_claimable_inv (e : env) :
  check_says_claimable e = true →
  ∃ d m st, api_check_claimable (http_check e) = (JDict d, m, st)
            ∧ status_is 401 st = false
            ∧ dict_truthy d = true
            ∧ truthy (dict_get_none d "isClaimable") = true.
Proof.
  unfold check_says_claimable.
  destruct (api_check_claimable (http_check e)) as [[p m] st].
  intros [H1 H2]%andb_true_iff. apply negb_true_iff in H1.
  destruct p as [| | | | |d]; try done.
  apply andb_true_iff in H2 as [H2 H3]. by exists d, m, st.
Qed.

Lemma auto_history_block (e : env) (user_id : N) (data : dict) (w : world)
    (sb gb db : json) :
  has_credential w user_id = true →
  check_says_claimable e = true →
  before_amounts e = Some (sb, gb, db) →
  ∃ w1, claim_history_files w1 = claim_history_files w
        ∧ auto_history e user_id data w
          = history_of (claim_and_record e user_id sb gb db w1).2 user_id.
Proof.
  intros Hc Hk Hb. apply amounts_of_dict in Hb as (d & Hp & Ht & -> & -> & ->).
  apply check_says_claimable_inv in Hk as (p & m & st & Hk & H401 & Hpt & Hcl).
  exists (with_slept (λ l, l ++ [uniform 5 15 (rand e (S (random_calls w)))])
            (with_random_calls S
               (with_sent (λ l, l ++ [(Z.of_N user_id, NClaimDetected)])
                  (with_random_calls S w)))).
  split; [done|].
  unfold auto_history, iteration, try_except, iteration_try.
  unfold has_credential, stored_user_data in Hc.
  rewrite Hk. mrun. rewrite Hc. mrun. rewrite H401, Hpt. mrun.
  unfold dict_get_none in Hcl. rewrite Hcl. mrun.
  unfold claiming_branch.
  destruct (api_get_token_info (http_info_before e)) as [p' m']. simpl in Hp. subst p'.
  mrun. rewrite Ht. mrun.
  match goal with |- context [claim_and_record ?a ?b ?c ?d ?f ?g] =>
    destruct (claim_and_record_shape a b c d f g)
      as [(r & x & -> & _) | (ex & -> & [-> | ->] & _)] end.
  - mrun. destruct (claim_successful r); mrun; [done|].
    destruct (status_is 401 (status_code r)); mrun; done.
  - done.
  - done.
Qed.




Lemma history_of_record (w1 w : world) (user_id : N) (x : history_entry) :
  claim_history_files w1 = claim_history_files w →
  history_of
    (with_claim_history_files <[user_id := history_of w1 user_id ++ [x]]> w1) user_id
  = history_of w user_id ++ [x].
Proof.
  intros Hw. unfold history_of. cbn. by rewrite lookup_insert_eq, Hw.
Qed.



(** C2, the claim as stated fails: with 10 silver before a successful claim
    and 5 after it, the recorded silver gain is -5, not max(5 - 10, 0) = 0. *)
Lemma claimed_delta_not_clamped_counterexample :
  before_amounts env_balance_drop = Some (JInt 10, JInt 0, JInt 0)
  ∧ after_amounts env_balance_drop = Some (JInt 5, JInt 0, JInt 0)
  ∧ claim_data_is_true env_balance_drop = true
  ∧ (claimed_silver <$> manual_history env_balance_drop sample_user 7001 (world_of None)
     = [-5])
  ∧ (claimed_silver <$> auto_history env_balance_drop sample_user
                          (token_record (Some true)) (world_of (Some true))
     = [-5])
  ∧ -5 ≠ Z.max (5 - 10) 0.
Proof. repeat split; vm_compute; congruence. Qed.

(** C2, amended. For every claim attempt, manual or automatic, that is
    reported successful and has integer balance snapshots before and after,
    the recorded gain of each tier is after - before, with no clamping: it
    is max(after - before, 0) whenever the balance did not decrease; a claim
    that leaves the balances unchanged records zero gains and is still
    recorded as a success. *)
Theorem claimed_delta_is_difference
    (e : env) (user_id : N) (chat_id : Z) (data : dict) (w : world)
    (sb gb db sa ga da : Z) :
  has_credential w user_id = true →
  before_amounts e = Some (JInt sb, JInt gb, JInt db) →
  after_amounts e = Some (JInt sa, JInt ga, JInt da) →
  claim_data_is_true e = true →
  let expected (after : list history_entry) :=
    ∃ x, after = history_of w user_id ++ [x]
         ∧ success x = true
         ∧ claimed_silver x = sa - sb
         ∧ claimed_gold x = ga - gb
         ∧ claimed_diamond x = da - db
         ∧ (sb ≤ sa → claimed_silver x = Z.max (sa - sb) 0)
         ∧ (gb ≤ ga → claimed_gold x = Z.max (ga - gb) 0)
         ∧ (db ≤ da → claimed_diamond x = Z.max (da - db) 0)
         ∧ (sa = sb → ga = gb → da = db → zero_gains x) in
  expected (manual_history e user_id chat_id w)
  ∧ (check_says_claimable e = true → expected (auto_history e user_id data w)).
Proof.
  intros Hc Hb Ha Hok expected.
  apply amounts_of_dict in Ha as (after & Hp & Ht & Hsa & Hga & Hda).
  assert (Hrun : ∀ w1, claim_history_files w1 = claim_history_files w →
            expected (history_of (claim_and_record e user_id (JInt sb) (JInt gb) (JInt db) w1).2
                                 user_id)).
  { intros w1 Hw.
    rewrite (claim_and_record_verified e user_id _ _ _ w1 after sa ga da sb gb db);
      try done; try (by rewrite <- ?Hsa, <- ?Hga, <- ?Hda).
    simpl. eexists. split; [by apply history_of_record|]. simpl.
    unfold zero_gains. simpl. repeat split; lia. }
  split.
  - destruct (manual_history_block e user_id chat_id w _ _ _ Hc Hb) as (w1 & Hw & ->).
    by apply Hrun.
  - intros Hk.
    destruct (auto_history_block e user_id data w _ _ _ Hc Hk Hb) as (w1 & Hw & ->).
    by apply Hrun.
Qed.

Lemma claimed_delta_is_difference_witness :
  (has_credential (world_of (Some true)) sample_user = true
   ∧ before_amounts env_balance_gain = Some (JInt 10, JInt 2, JInt 1)
   ∧ after_amounts env_balance_gain = Some (JInt 15, JInt 2, JInt 1)
   ∧ claim_data_is_true env_balance_gain = true)
  ∧ ∃ x, manual_history env_balance_gain sample_user 7001 (world_of (Some true)) = [x]
         ∧ success x = true
         ∧ claimed_silver x = 15 - 10
         ∧ claimed_gold x = 2 - 2
         ∧ claimed_diamond x = 1 - 1.
Proof.
  split; [repeat split; vm_compute; reflexivity|].
  destruct (claimed_delta_is_difference env_balance_gain sample_user 7001 ∅
              (world_of (Some true)) 10 2 1 15 2 1)
    as [(x & Hx & Hs & H1 & H2 & H3 & _) _]; try (vm_compute; reflexivity).
  exists x. by repeat split.
Defined.

(** ** The history: what is shown, and what appending does *)

Lemma history_shown_entries (h : list history_entry) :
  (history_shown h).*2 = take 10 (reverse h).
Proof.
  unfold history_shown, enumerate, last_slice.
  rewrite <- list_fmap_compose, fmap_imap, take_reverse.
  rewrite (imap_ext _ (const id)); [|done].
  by rewrite imap_const, list_fmap_id.
Qed.

Lemma iteration_appends_at_most_one (e : env) (user_id : N) (data : dict) (s0 : Q)
    (w : world) :
  appends_at_most_one user_id w (fw (iteration e user_id (mkFrame w data s0)).2).
Proof.
  unfold iteration, try_except, iteration_try, iteration_except.
  destruct (api_check_claimable (http_check e)) as [[p m] st].
  mrun.
  destruct (truthy (dict_get_none (default ∅ (user_data_files w !! user_id)) "auth_token"));
    mrun; [|by left].
  destruct (status_is 401 st); mrun; [by left|].
  destruct (truthy p) eqn:Hp; mrun.
  2:{ unfold failed_check_branch. mrun. destruct (status_is 429 st); mrun; by left. }
  destruct p as [| | | | |d]; mrun; try by left.
  destruct (truthy (dict_get d "isClaimable" JNull)); mrun.
  - unfold claiming_branch.
    destruct (api_get_token_info (http_info_before e)) as [p' m']. mrun.
    destruct (truthy p') eqn:Hp'; mrun; [|by left].
    destruct p' as [| | | | |d']; mrun; try by left.
    match goal with |- context [claim_and_record ?a ?b ?c ?d ?f ?g] =>
      destruct (claim_and_record_shape a b c d f g)
        as [(r & x & -> & _) | (ex & -> & [-> | ->] & _)] end; mrun; try by left.
    destruct (claim_successful r); mrun; [right; by exists x|].
    destruct (status_is 401 (status_code r)); mrun; right; by exists x.
  - unfold waiting_branch. mrun.
    destruct (as_int (dict_get d "nextFrame" (JInt 0))) as [n|ex] eqn:En; mrun.
    2:{ destruct (dict_get d "nextFrame" (JInt 0)); simpl in En; try done;
          injection En as <-; mrun; by left. }
    destruct (0 <? n); mrun; [|by left].
    repeat (match goal with |- context [if ?b then _ else _] => destruct b end; mrun);
      by left.
Qed.

Lemma core_claim_action_appends_at_most_one (e : env) (user_id : N) (chat_id : Z)
    (w : world) :
  appends_at_most_one user_id w (core_claim_action e user_id chat_id w).2.
Proof.
  unfold core_claim_action. mrun.
  destruct (truthy (dict_get_none (default ∅ (user_data_files w !! user_id)) "auth_token"));
    mrun; [|by left].
  destruct (api_get_token_info (http_info_before e)) as [p m]. mrun.
  destruct (truthy p) eqn:Hp; mrun; [|by left].
  destruct p as [| | | | |d]; mrun; try by left.
  match goal with |- context [claim_and_record ?a ?b ?c ?d ?f ?g] =>
    destruct (claim_and_record_shape a b c d f g)
      as [(r & x & -> & _) | (ex & -> & _)] end; mrun; [|by left].
  destruct (claim_successful r); mrun; right; by exists x.
Qed.

Lemma appends_at_most_one_grows (user_id : N) (w w' : world) :
  appends_at_most_one user_id w w' → history_grows user_id w w'.
Proof.
  unfold history_grows, history_of. intros [-> | [x ->]].
  - split; [by left | done].
  - split.
    + right. exists x. by rewrite lookup_insert_eq.
    + intros other Hne. by rewrite lookup_insert_ne.
Qed.

(** C6. Whatever the length of the persisted history, the history view
    lists the ten most recent entries at most, the most recent first; and a
    claim attempt, manual or automatic, only appends to the stored history:
    prior entries keep their place and none is dropped, however long the
    history already is. *)
Theorem history_view_bounded_and_append_monotonic :
  (∀ h : list history_entry,
     (history_shown h).*2 = take 10 (reverse h)
     ∧ (length (history_shown h) ≤ 10)%nat
     ∧ length (history_shown h) = Nat.min 10 (length h))
  ∧ (∀ user_id chat_id w,
       ∃ text,
         core_history_action user_id chat_id w
         = (Returned tt, with_sent (λ l, l ++ [(chat_id, text)]) w)
         ∧ match history_of w user_id with
           | [] => text = RHistoryEmpty
           | h => ∃ total, text = RHistory (history_shown h) total
           end)
  ∧ (∀ e user_id chat_id w,
       history_grows user_id w (core_claim_action e user_id chat_id w).2)
  ∧ (∀ e user_id data s0 w,
       history_grows user_id w (fw (iteration e user_id (mkFrame w data s0)).2)).
Proof.
  split; [|split; [|split]].
  - intros h.
    assert (Hlen : length (history_shown h) = Nat.min 10 (length h)).
    { rewrite <- (length_fmap snd), history_shown_entries, length_take, length_reverse.
      done. }
    split; [apply history_shown_entries|]. split; [lia | done].
  - intros user_id chat_id w. unfold core_history_action, history_of. mrun.
    unfold load_claim_history. mrun.
    destruct (default [] (claim_history_files w !! user_id)) as [|x h];
      eexists; (split; [reflexivity|]); [done | by eexists].
  - intros. apply appends_at_most_one_grows, core_claim_action_appends_at_most_one.
  - intros. apply appends_at_most_one_grows, iteration_appends_at_most_one.
Qed.

(** ** The loop *)

Lemma api_check_claimable_status (r : http_result) : (api_check_claimable r).2 = r.2.
Proof.
  destruct r as [[d|] st]; simpl; [|done].
  repeat (match goal with |- context [if ?b then _ else _] => destruct b end; simpl); done.
Qed.

Lemma api_check_claimable_no_payload (r : http_result) :
  status_is 200 r.2 = false → (api_check_claimable r).1.1 = JNull.
Proof.
  destruct r as [[d|] st]; simpl; [|done]. intros ->. simpl.
  repeat (match goal with |- context [if ?b then _ else _] => destruct b end; simpl); done.
Qed.

Lemma tasks_alter_lookup (w : world) (tid : nat) (t : task) (s : task_state) :
  tasks w !! tid = Some t →
  tasks (set_task_state tid s w) !! tid = Some (mkTask (owner t) s).
Proof.
  intros H. unfold set_task_state. cbn.
  rewrite list_lookup_alter_eq. by rewrite H.
Qed.

(** C3. When the eligibility check of an iteration returns HTTP 401, the
    task sends exactly one notification, the fatal one, persists
    [auto_claim_active = False], ends without sleeping, and its handle is
    gone from the registry. *)
Theorem check_401_stops_the_loop
    (e : env) (tid : nat) (user_id : N) (data : dict) (w : world) :
  tasks w !! tid = Some (mkTask user_id (Suspended InRemoteCall data)) →
  has_credential w user_id = true →
  (http_check e).2 = Some 401 →
  let w' := task_step e tid w in
  sent w' = sent w ++ [(Z.of_N user_id, NStoppedTokenInvalidOnCheck)]
  ∧ user_data_files w'
    = <[user_id := <["auto_claim_active" := JBool false]> data]> (user_data_files w)
  ∧ persisted_active w' user_id = false
  ∧ task_state_of w' tid = Some Finished
  ∧ AUTO_CLAIM_TASKS w' !! user_id = None
  ∧ task_running w' user_id = false
  ∧ slept w' = slept w.
Proof.
  intros Ht Hc H401 w'. subst w'.
  unfold task_step. rewrite Ht. cbn [owner state].
  unfold iteration, try_except, iteration_try.
  pose proof (api_check_claimable_status (http_check e)) as Hst.
  destruct (api_check_claimable (http_check e)) as [[p m] st]. simpl in Hst.
  rewrite H401 in Hst. subst st.
  unfold has_credential, stored_user_data in Hc.
  mrun. rewrite Hc. mrun.
  unfold task_state_of, task_running, persisted_active, stored_user_data, auto_claim_active.
  cbn. rewrite !lookup_delete_eq, !lookup_insert_eq. cbn.
  rewrite list_lookup_alter_eq, Ht. unfold dict_get. rewrite lookup_insert_eq.
  by repeat split.
Qed.

Lemma check_401_stops_the_loop_witness :
  let e := env_check_error 401 "Unauthorized" in
  let w := world_in_iteration in
  (tasks w !! 0%nat
     = Some (mkTask sample_user (Suspended InRemoteCall (token_record (Some true))))
   ∧ has_credential w sample_user = true
   ∧ (http_check e).2 = Some 401)
  ∧ sent (task_step e 0 w) = [(Z.of_N sample_user, NStoppedTokenInvalidOnCheck)]
  ∧ persisted_active (task_step e 0 w) sample_user = false
  ∧ task_state_of (task_step e 0 w) 0 = Some Finished
  ∧ AUTO_CLAIM_TASKS (task_step e 0 w) !! sample_user = None.
Proof.
  intros e w.
  split; [repeat split; vm_compute; reflexivity|].
  destruct (check_401_stops_the_loop e 0 sample_user (token_record (Some true)) w)
    as (H1 & _ & H3 & H4 & H5 & _); [reflexivity | vm_compute; reflexivity | reflexivity |].
  by repeat split.
Defined.

Lemma uniform_range (a b r : Q) :
  (a <= b)%Q → (0 <= r <= 1)%Q → (a <= uniform a b r <= b)%Q.
Proof. unfold uniform. intros Hab [H0 H1]. split; nra. Qed.

Lemma Qlt_bool_iff (x y : Q) : Qlt_bool x y = true ↔ (x < y)%Q.
Proof.
  unfold Qlt_bool. rewrite negb_true_iff, <- not_true_iff_false, Qle_bool_iff.
  split; [apply Qnot_le_lt | apply Qlt_not_le].
Qed.

Lemma Qlt_bool_false_iff (x y : Q) : Qlt_bool x y = false ↔ (y <= x)%Q.
Proof. unfold Qlt_bool. by rewrite negb_false_iff, Qle_bool_iff. Qed.




(** C7. When the eligibility check of an iteration returns HTTP 429, the
    task stays alive, its next sleep is [uniform(45*60, 75*60)] whatever the
    response carries, hence between 45 and 75 minutes, and it sends the
    notice of the extended wait once, after the notice that the check
    failed. *)
Theorem rate_limited_check_extends_the_wait
    (e : env) (tid : nat) (user_id : N) (data : dict) (w : world) :
  tasks w !! tid = Some (mkTask user_id (Suspended InRemoteCall data)) →
  has_credential w user_id = true →
  (http_check e).2 = Some 429 →
  let w' := task_step e tid w in
  let planned := uniform (5 * 60) (10 * 60) (rand e (random_calls w)) in
  let extended := uniform (45 * 60) (75 * 60) (rand e (S (random_calls w))) in
  task_state_of w' tid = Some (Suspended InSleep data)
  ∧ slept w' = slept w ++ [extended]
  ∧ ((0 <= rand e (S (random_calls w)) <= 1)%Q → (45 * 60 <= extended <= 75 * 60)%Q)
  ∧ sent w'
    = sent w ++ [(Z.of_N user_id,
                  NCheckFailed (api_check_claimable (http_check e)).1.2 (minutes_of planned));
                 (Z.of_N user_id, NRateLimited (minutes_of extended))]
  ∧ AUTO_CLAIM_TASKS w' = AUTO_CLAIM_TASKS w
  ∧ user_data_files w' = user_data_files w
  ∧ claim_history_files w' = claim_history_files w.
Proof.
  intros Ht Hc H429 w' planned extended. subst w' planned extended.
  unfold task_step. rewrite Ht. cbn [owner state].
  unfold iteration, try_except, iteration_try.
  pose proof (api_check_claimable_status (http_check e)) as Hst.
  pose proof (api_check_claimable_no_payload (http_check e)) as Hnp.
  rewrite H429 in Hnp. specialize (Hnp eq_refl).
  destruct (api_check_claimable (http_check e)) as [[p m] st]. simpl in Hst, Hnp.
  rewrite H429 in Hst. subst st p.
  unfold has_credential, stored_user_data in Hc.
  mrun. rewrite Hc. mrun. unfold failed_check_branch. mrun.
  unfold task_state_of. cbn. rewrite list_lookup_alter_eq, Ht. cbn.
  rewrite <- app_assoc. cbn.
  repeat split; try done; by apply uniform_range.
Qed.

Lemma rate_limited_check_extends_the_wait_witness :
  let e := env_check_error 429 "Too Many Requests" in
  let w := world_in_iteration in
  (tasks w !! 0%nat
     = Some (mkTask sample_user (Suspended InRemoteCall (token_record (Some true))))
   ∧ has_credential w sample_user = true
   ∧ (http_check e).2 = Some 429)
  ∧ task_state_of (task_step e 0 w) 0
    = Some (Suspended InSleep (token_record (Some true)))
  ∧ slept (task_step e 0 w) = [uniform (45 * 60) (75 * 60) (1 # 2)]
  ∧ (uniform (45 * 60) (75 * 60) (1 # 2) == 60 * 60)%Q.
Proof.
  intros e w.
  split; [repeat split; vm_compute; reflexivity|].
  destruct (rate_limited_check_extends_the_wait e 0 sample_user (token_record (Some true)) w)
    as (H1 & H2 & _); [reflexivity | vm_compute; reflexivity | reflexivity |].
  split; [exact H1|]. split; [exact H2|]. reflexivity.
Defined.



(** The ranges of the buckets, for values of [random()] in [[0, 1]]. *)
Lemma bucket_sleep_ranges (next_eligible_at now_ms : Z) (r0 r1 : Q) :
  (0 <= r0 <= 1)%Q → (0 <= r1 <= 1)%Q →
  let remaining_ms := next_eligible_at - now_ms in
  let x := bucket_sleep next_eligible_at now_ms r0 r1 in
  let remaining := (inject_Z remaining_ms / 1000)%Q in
  (next_eligible_at ≤ 0 → (5 * 60 <= x <= 10 * 60)%Q)
  ∧ (0 < next_eligible_at → 3600000 < remaining_ms → (25 * 60 <= x <= 35 * 60)%Q)
  ∧ (0 < next_eligible_at → 900000 < remaining_ms ≤ 3600000 →
     (5 * 60 <= x <= 10 * 60)%Q)
  ∧ (0 < next_eligible_at → 0 < remaining_ms ≤ 900000 →
     (remaining + 10 <= x <= remaining + 45)%Q)
  ∧ (0 < next_eligible_at → remaining_ms ≤ 0 → (30 <= x <= 90)%Q).
Proof.
  intros H0 H1 remaining_ms x remaining. subst x remaining. unfold bucket_sleep.
  fold remaining_ms.
  repeat split; intros;
    repeat match goal with
      | |- context [?a <=? ?b] => destruct (Z.leb_spec a b); try lia
      | |- context [?a <? ?b] => destruct (Z.ltb_spec a b); try lia
      end;
    try (apply uniform_range; done);
    pose proof (uniform_range 10 45 r1 ltac:(done) H1) as [? ?]; lra.
Qed.



(** ** The registry: start and stop *)

Lemma lookup_snoc {A} (l : list A) (x : A) : (l ++ [x]) !! length l = Some x.
Proof. by apply list_lookup_middle. Qed.

(** C5. [stop] returns, and after it the user has no live handle in the
    registry and the persisted flag is off; a registered task is cancelled
    wherever it was suspended, in a remote call included; with the flag
    already off and no live handle, [stop] only answers and changes
    nothing. *)
Theorem stop_leaves_no_live_handle (user_id : N) (chat_id : Z) (w : world) :
  let w' := (core_autoclaim_stop user_id chat_id w).2 in
  (core_autoclaim_stop user_id chat_id w).1 = Returned tt
  ∧ task_running w' user_id = false
  ∧ persisted_active w' user_id = false
  ∧ (∀ tid t, AUTO_CLAIM_TASKS w !! user_id = Some tid → tasks w !! tid = Some t →
              done <$> tasks w' !! tid = Some true)
  ∧ (∀ tid data, AUTO_CLAIM_TASKS w !! user_id = Some tid →
                 tasks w !! tid = Some (mkTask user_id (Suspended InRemoteCall data)) →
                 task_state_of w' tid = Some Cancelled)
  ∧ (persisted_active w user_id = false → task_running w user_id = false →
     w' = with_sent (λ l, l ++ [(chat_id, RAlreadyInactive)]) w).
Proof.
  unfold core_autoclaim_stop, persisted_active, stored_user_data, task_running, task_state_of.
  mrun.
  destruct (auto_claim_active (default ∅ (user_data_files w !! user_id))) eqn:Ha;
  destruct (AUTO_CLAIM_TASKS w !! user_id) as [tid|] eqn:Hr; mrun;
  try destruct (tasks w !! tid) as [t|] eqn:Ht; mrun;
  try destruct (done t) eqn:Hd; mrun;
  unfold cancel_and_await; mrun;
  rewrite ?lookup_delete_eq, ?lookup_insert_eq; cbn;
  unfold auto_claim_active, dict_get; rewrite ?lookup_insert_eq; cbn;
  rewrite ?Hr; cbn; rewrite ?Ht; cbn; rewrite ?Hd; cbn;
  repeat split; try done;
  intros ? ? [= <-] Hl; rewrite ?list_lookup_alter_eq, Hl in *; simplify_eq/=;
  by rewrite ?Hd.
Qed.

Lemma stop_leaves_no_live_handle_witness :
  let w := world_in_iteration in
  let w' := (core_autoclaim_stop sample_user 7001 w).2 in
  (AUTO_CLAIM_TASKS w !! sample_user = Some 0%nat
   ∧ tasks w !! 0%nat
     = Some (mkTask sample_user (Suspended InRemoteCall (token_record (Some true)))))
  ∧ task_running w' sample_user = false
  ∧ persisted_active w' sample_user = false
  ∧ task_state_of w' 0 = Some Cancelled.
Proof.
  intros w w'. split; [split; reflexivity|].
  destruct (stop_leaves_no_live_handle sample_user 7001 w) as (_ & H1 & H2 & _ & H4 & _).
  split; [exact H1|]. split; [exact H2|].
  apply (H4 0%nat (token_record (Some true))); reflexivity.
Defined.





(** ** File names of the user records *)

Lemma all_digits_string_of_uint (d : Decimal.uint) :
  all_digits (NilEmpty.string_of_uint d) = true.
Proof. induction d; simpl; done. Qed.

Lemma to_uint_nonnil (user_id : N) : N.to_uint user_id ≠ Decimal.Nil.
Proof.
  destruct user_id as [|p]; simpl; [done|]. apply DecimalPos.Unsigned.to_uint_nonnil.
Qed.

Lemma string_of_uint_digits (d : Decimal.uint) :
  d ≠ Decimal.Nil →
  isdigit (NilZero.string_of_uint d) = true
  ∧ all_digits (NilZero.string_of_uint d) = true.
Proof.
  intros Hd. pose proof (all_digits_string_of_uint d) as H.
  destruct d; try done; by split.
Qed.

Lemma is_digit_not_dot (c : ascii) : is_digit c = true → Ascii.eqb c "." = false.
Proof.
  intros H. destruct (Ascii.eqb_spec c "."); [subst; by vm_compute in H | done].
Qed.

Lemma first_field_digits (s : string) :
  all_digits s = true → first_field (s +:+ ".json") = s.
Proof.
  induction s as [|c s IH]; simpl; [done|].
  intros [Hc Hs]%andb_true_iff. rewrite (is_digit_not_dot c Hc). by rewrite IH.
Qed.

Lemma endswith_append (s suffix : string) : endswith (s +:+ suffix) suffix = true.
Proof.
  induction s as [|c s IH].
  - change (EmptyString +:+ suffix) with suffix.
    destruct suffix; cbn [endswith]; by rewrite String.eqb_refl.
  - change (String c s +:+ suffix) with (String c (s +:+ suffix)).
    cbn [endswith]. rewrite IH. by destruct (String.eqb _ _).
Qed.

(** The name of a record leads [post_init] back to its user. *)
Lemma user_file_roundtrip (user_id : N) :
  let filename := get_user_data_file user_id in
  endswith filename ".json" = true
  ∧ isdigit (first_field filename) = true
  ∧ int_of_digits (first_field filename) = Returned user_id.
Proof.
  unfold get_user_data_file.
  destruct (string_of_uint_digits _ (to_uint_nonnil user_id)) as [Hd Ha].
  split; [apply endswith_append|].
  rewrite first_field_digits by done. split; [done|].
  unfold int_of_digits. rewrite NilZero.usu by apply to_uint_nonnil.
  by rewrite DecimalN.Unsigned.of_to.
Qed.

(** ** The restart pass of [post_init] *)

Lemma restart_user_run (user_id : N) (w : world) :
  restart_user user_id w
  = (Returned tt, if needs_restart w user_id then with_new_task user_id w else w).
Proof.
  unfold restart_user, needs_restart, persisted_active, stored_user_data,
    auto_claim_active, task_running, with_new_task, create_task.
  mrun. unfold dict_get_none, dict_get.
  destruct (default ∅ (user_data_files w !! user_id) !! "auto_claim_active") as [j|];
    cbn; [|done].
  destruct (truthy j); mrun; [|done].
  destruct (AUTO_CLAIM_TASKS w !! user_id) as [tid|] eqn:Hr; cbn.
  - destruct (tasks w !! tid) as [t|]; cbn; [|done]. by destruct (done t).
  - done.
Qed.

Lemma with_new_task_wf (user_id : N) (w : world) :
  registry_wf w → registry_wf (with_new_task user_id w).
Proof.
  intros Hwf u tid. unfold with_new_task. cbn.
  destruct (decide (u = user_id)) as [->|Hne].
  - rewrite lookup_insert_eq. intros [= <-]. eexists. by rewrite lookup_snoc.
  - rewrite lookup_insert_ne by done. intros Hu.
    destruct (Hwf _ _ Hu) as (t & Ht & Ho). exists t. split; [|done].
    by apply lookup_app_l_Some.
Qed.

Lemma with_new_task_running (user_id other : N) (w : world) :
  registry_wf w →
  task_running (with_new_task user_id w) other
  = if decide (other = user_id) then true else task_running w other.
Proof.
  intros Hwf. unfold task_running, with_new_task. cbn.
  destruct (decide (other = user_id)) as [->|Hne].
  - by rewrite lookup_insert_eq, lookup_snoc.
  - rewrite lookup_insert_ne by done.
    destruct (AUTO_CLAIM_TASKS w !! other) as [tid|] eqn:Hr; [|done].
    destruct (Hwf _ _ Hr) as (t & Ht & _).
    by rewrite (lookup_app_l_Some _ _ _ _ Ht), Ht.
Qed.

Lemma filter_ext_elem {A} (P1 P2 : A → Prop) `{!∀ x, Decision (P1 x)}
    `{!∀ x, Decision (P2 x)} (l : list A) :
  (∀ x, x ∈ l → P1 x ↔ P2 x) → filter P1 l = filter P2 l.
Proof.
  induction l as [|x l IH]; intros Hext; [done|].
  rewrite !filter_cons, IH.
  - pose proof (Hext x ltac:(constructor)) as Hx.
    destruct (decide (P1 x)), (decide (P2 x)); tauto.
  - intros y Hy. apply Hext. by constructor.
Qed.

Lemma restart_pass (ids : list N) (w : world) :
  NoDup ids → registry_wf w →
  let w' := (for_each ids restart_user w).2 in
  (for_each ids restart_user w).1 = Returned tt
  ∧ tasks w' = tasks w ++ ((λ u, mkTask u Created)
                           <$> filter (λ u, needs_restart w u = true) ids)
  ∧ user_data_files w' = user_data_files w
  ∧ registry_wf w'
  ∧ (∀ u, task_running w' u
          = if bool_decide (u ∈ ids) && needs_restart w u then true
            else task_running w u).
Proof.
  intros Hnd. revert w. induction Hnd as [|a l Ha Hnd IH]; intros w Hwf.
  { cbn. rewrite app_nil_r. by repeat split. }
  cbn [for_each]. unfold mbind, M_bind. rewrite restart_user_run.
  set (w1 := if needs_restart w a then with_new_task a w else w).
  assert (Hwf1 : registry_wf w1).
  { subst w1. destruct (needs_restart w a); [by apply with_new_task_wf | done]. }
  assert (Hf1 : user_data_files w1 = user_data_files w).
  { subst w1. by destruct (needs_restart w a). }
  assert (Hr1 : ∀ u, task_running w1 u
                     = if decide (u = a) then needs_restart w a || task_running w a
                       else task_running w u).
  { intros u. subst w1. destruct (needs_restart w a) eqn:Hn.
    - rewrite with_new_task_running by done. by destruct (decide (u = a)).
    - by destruct (decide (u = a)) as [->|]. }
  assert (Hn1 : ∀ u, u ≠ a → needs_restart w1 u = needs_restart w u).
  { intros u Hu. unfold needs_restart, persisted_active, stored_user_data.
    rewrite Hf1, Hr1. by destruct (decide (u = a)). }
  destruct (IH w1 Hwf1) as (Hret & Ht & Hf & Hwf' & Hr).
  cbn zeta in *.
  split; [done|]. split; [|split; [by rewrite Hf|split; [done|]]].
  - rewrite Ht.
    rewrite (filter_ext_elem (λ u, needs_restart w1 u = true)
               (λ u, needs_restart w u = true) l).
    2:{ intros u Hu. rewrite Hn1; [done|]. intros ->. done. }
    rewrite filter_cons. subst w1.
    destruct (needs_restart w a) eqn:Hn.
    + destruct (decide (true = true)); [|done].
      unfold with_new_task. cbn. by rewrite <- app_assoc.
    + by destruct (decide (false = true)).
  - intros u. rewrite Hr, Hr1.
    destruct (decide (u = a)) as [->|Hne].
    + rewrite (bool_decide_false (a ∈ l)) by done.
      rewrite (bool_decide_true (a ∈ a :: l)) by constructor. cbn.
      by destruct (needs_restart w a).
    + rewrite Hn1 by done.
      assert (Hiff : bool_decide (u ∈ a :: l) = bool_decide (u ∈ l)).
      { apply bool_decide_ext. rewrite elem_of_cons. tauto. }
      by rewrite Hiff.
Qed.

Lemma restart_from_user_file (user_id : N) (w : world) :
  restart_from_file (get_user_data_file user_id) w = restart_user user_id w.
Proof.
  destruct (user_file_roundtrip user_id) as (He & Hd & Hi). cbn zeta in *.
  unfold restart_from_file, try_except. rewrite He, Hd. cbn [negb].
  unfold mbind, M_bind, lift_outcome. rewrite Hi.
  by rewrite restart_user_run.
Qed.

(** On the names of the stored records, [post_init] runs the restart of
    each user in turn. *)
Lemma post_init_on_user_files (ids : list N) (w : world) :
  post_init (get_user_data_file <$> ids) w = for_each ids restart_user w.
Proof.
  unfold post_init. revert w. induction ids as [|a l IH]; intros w; [done|].
  cbn [fmap list_fmap for_each]. unfold mbind, M_bind.
  rewrite restart_from_user_file. destruct (restart_user a w) as [[[]|ex] w1]; [|done].
  apply IH.
Qed.

Lemma spawned_for_created (user_id : N) (l : list N) :
  NoDup l →
  spawned_for user_id ((λ u, mkTask u Created) <$> l)
  = if bool_decide (user_id ∈ l) then 1%nat else 0%nat.
Proof.
  unfold spawned_for. induction 1 as [|a l Ha Hnd IH]; [done|].
  cbn [fmap list_fmap]. rewrite filter_cons. cbn [owner].
  destruct (decide (a = user_id)) as [->|Hne].
  - rewrite bool_decide_true by constructor. cbn [length]. rewrite IH.
    by rewrite bool_decide_false.
  - rewrite IH.
    assert (Hiff : bool_decide (user_id ∈ a :: l) = bool_decide (user_id ∈ l)).
    { apply bool_decide_ext. rewrite elem_of_cons. split; [|tauto].
      intros [->|]; [done|done]. }
    by rewrite Hiff.
Qed.

Lemma persisted_active_stored (w : world) (user_id : N) :
  persisted_active w user_id = true →
  user_id ∈ (map_to_list (user_data_files w)).*1.
Proof.
  unfold persisted_active, stored_user_data.
  destruct (user_data_files w !! user_id) as [d|] eqn:Hd; [|done].
  intros _. apply list_elem_of_fmap. exists (user_id, d). split; [done|].
  by apply elem_of_map_to_list.
Qed.

(** C8. At boot, whatever the order in which the directory lists the
    records, the restart pass creates exactly one task, not yet started, for
    each user whose persisted flag is on and who has no live handle, and
    none for any other user; each such user then has a live handle. *)
Theorem restart_pass_spawns_one_task_per_flagged_orphan
    (listing : list string) (w : world) :
  registry_wf w →
  listing ≡ₚ os_listdir w →
  let w' := (post_init listing w).2 in
  ∃ new : list task,
    tasks w' = tasks w ++ new
    ∧ Forall (λ t, state t = Created) new
    ∧ (∀ user_id,
         spawned_for user_id new = if needs_restart w user_id then 1%nat else 0%nat)
    ∧ (∀ user_id, needs_restart w user_id = true → task_running w' user_id = true)
    ∧ (∀ user_id, needs_restart w user_id = false →
                  task_running w' user_id = task_running w user_id)
    ∧ user_data_files w' = user_data_files w.
Proof.
  intros Hwf Hperm w'. subst w'. unfold os_listdir in Hperm.
  assert (Hmap : ∀ l : list N, get_user_data_file <$> l = map get_user_data_file l).
  { induction l; [done|]. cbn. by f_equal. }
  rewrite Hmap in Hperm.
  apply Permutation_map_inv in Hperm as (ids & -> & Hids).
  rewrite <- Hmap, post_init_on_user_files.
  assert (Hnd : NoDup ids).
  { rewrite <- Hids. apply NoDup_fst_map_to_list. }
  destruct (restart_pass ids w Hnd Hwf) as (_ & Ht & Hf & _ & Hr). cbn zeta in *.
  eexists. split; [exact Ht|]. split; [|split; [|split; [|split; [|done]]]].
  - apply Forall_fmap, Forall_forall. done.
  - intros u. rewrite spawned_for_created by (by apply NoDup_filter).
    destruct (needs_restart w u) eqn:Hn.
    + rewrite bool_decide_true; [done|]. apply list_elem_of_filter. split; [done|].
      rewrite <- Hids. apply persisted_active_stored.
      unfold needs_restart in Hn. by apply andb_true_iff in Hn as [? _].
    + rewrite bool_decide_false; [done|]. intros [Hu _]%list_elem_of_filter. congruence.
  - intros u Hn. rewrite Hr, Hn.
    rewrite bool_decide_true; [done|].
    rewrite <- Hids. apply persisted_active_stored.
    unfold needs_restart in Hn. by apply andb_true_iff in Hn as [? _].
  - intros u Hn. rewrite Hr, Hn. by rewrite andb_false_r.
Qed.

Lemma restart_pass_spawns_one_task_per_flagged_orphan_witness :
  let w := world_at_boot in
  let w' := (post_init (os_listdir w) w).2 in
  (registry_wf w ∧ os_listdir w ≡ₚ os_listdir w)
  ∧ needs_restart w 7001 = true
  ∧ needs_restart w 7002 = true
  ∧ needs_restart w 7003 = false
  ∧ length (tasks w') = 2%nat
  ∧ ∃ new, tasks w' = new
           ∧ spawned_for 7001 new = 1%nat
           ∧ spawned_for 7002 new = 1%nat
           ∧ spawned_for 7003 new = 0%nat.
Proof.
  intros w w'.
  assert (Hwf : registry_wf w) by (intros u tid Hu; vm_compute in Hu; discriminate Hu).
  split; [by split|].
  destruct (restart_pass_spawns_one_task_per_flagged_orphan (os_listdir w) w Hwf
              ltac:(reflexivity)) as (new & Ht & _ & Hs & _).
  repeat split; try (vm_compute; reflexivity).
  exists new. split; [exact Ht|].
  repeat split; rewrite Hs; vm_compute; reflexivity.
Defined.

(** ** The registry stays well formed *)

Lemma set_task_state_wf (tid : nat) (s : task_state) (w : world) :
  registry_wf w → registry_wf (set_task_state tid s w).
Proof.
  intros Hwf u t Hu. destruct (Hwf u t Hu) as (x & Hx & Ho).
  unfold set_task_state. cbn.
  destruct (decide (tid = t)) as [->|Hne].
  - exists (mkTask (owner x) s). rewrite list_lookup_alter_eq, Hx. by split.
  - exists x. by rewrite list_lookup_alter_ne.
Qed.

Lemma registry_wf_delete (user_id : N) (w : world) :
  registry_wf w → registry_wf (with_AUTO_CLAIM_TASKS (delete user_id) w).
Proof.
  intros Hwf u t. cbn. intros Hu. apply lookup_delete_Some in Hu as [_ Hu].
  by apply Hwf.
Qed.

Lemma registry_wf_same (w w' : world) :
  tasks w' = tasks w → AUTO_CLAIM_TASKS w' = AUTO_CLAIM_TASKS w →
  registry_wf w → registry_wf w'.
Proof. intros Ht Hr Hwf u t. rewrite Ht, Hr. apply Hwf. Qed.

Lemma start_preserves_wf (user_id : N) (chat_id : Z) (w : world) :
  registry_wf w → registry_wf (core_autoclaim_start user_id chat_id w).2.
Proof.
  intros Hwf. unfold core_autoclaim_start. mrun.
  destruct (truthy _); mrun; [|by apply (registry_wf_same w)].
  destruct (auto_claim_active _ && task_running w user_id); mrun;
    [by apply (registry_wf_same w)|].
  unfold create_task. mrun.
  apply (registry_wf_same (with_new_task user_id w)); [done|done|].
  by apply with_new_task_wf.
Qed.

Lemma stop_preserves_wf (user_id : N) (chat_id : Z) (w : world) :
  registry_wf w → registry_wf (core_autoclaim_stop user_id chat_id w).2.
Proof.
  intros Hwf. unfold core_autoclaim_stop. mrun.
  destruct (negb _ && negb _); mrun; [by apply (registry_wf_same w)|].
  destruct (task_running w user_id); mrun.
  - destruct (AUTO_CLAIM_TASKS w !! user_id) as [tid|] eqn:Hr; mrun.
    + unfold cancel_and_await. mrun.
      apply (registry_wf_same
               (with_AUTO_CLAIM_TASKS (delete user_id) (set_task_state tid Cancelled w)));
        [done|done|].
      by apply registry_wf_delete, set_task_state_wf.
    + apply (registry_wf_same (with_AUTO_CLAIM_TASKS (delete user_id) w)); [done|done|].
      by apply registry_wf_delete.
  - apply (registry_wf_same (with_AUTO_CLAIM_TASKS (delete user_id) w)); [done|done|].
    by apply registry_wf_delete.
Qed.

Lemma restart_from_file_preserves_wf (filename : string) (w : world) :
  registry_wf w → registry_wf (restart_from_file filename w).2.
Proof.
  intros Hwf. unfold restart_from_file, try_except.
  destruct (endswith filename ".json"); [|done].
  destruct (negb (isdigit (first_field filename))); [done|].
  unfold mbind, M_bind, lift_outcome.
  destruct (int_of_digits (first_field filename)) as [u|ex]; [|done].
  rewrite restart_user_run. cbn.
  destruct (needs_restart w u); [by apply with_new_task_wf | done].
Qed.

Lemma post_init_preserves_wf (listing : list string) (w : world) :
  registry_wf w → registry_wf (post_init listing w).2.
Proof.
  unfold post_init. revert w. induction listing as [|a l IH]; intros w Hwf; [done|].
  cbn [for_each]. unfold mbind, M_bind.
  pose proof (restart_from_file_preserves_wf a w Hwf) as H1.
  destruct (restart_from_file a w) as [[[]|ex] w1]; [by apply IH | done].
Qed.

(** An iteration of the loop touches neither the tasks nor the registry. *)
Lemma iteration_keeps_registry (e : env) (user_id : N) (data : dict) (s0 : Q)
    (w : world) :
  let w' := fw (iteration e user_id (mkFrame w data s0)).2 in
  tasks w' = tasks w ∧ AUTO_CLAIM_TASKS w' = AUTO_CLAIM_TASKS w.
Proof.
  unfold iteration, try_except, iteration_try, iteration_except.
  destruct (api_check_claimable (http_check e)) as [[p m] st].
  mrun.
  destruct (truthy (dict_get_none (default ∅ (user_data_files w !! user_id)) "auth_token"));
    mrun; [|done].
  destruct (status_is 401 st); mrun; [done|].
  destruct (truthy p) eqn:Hp; mrun.
  2:{ unfold failed_check_branch. mrun. destruct (status_is 429 st); mrun; done. }
  destruct p as [| | | | |d]; mrun; try done.
  destruct (truthy (dict_get d "isClaimable" JNull)); mrun.
  - unfold claiming_branch.
    destruct (api_get_token_info (http_info_before e)) as [p' m']. mrun.
    destruct (truthy p') eqn:Hp'; mrun; [|done].
    destruct p' as [| | | | |d']; mrun; try done.
    match goal with |- context [claim_and_record ?a ?b ?c ?d ?f ?g] =>
      destruct (claim_and_record_shape a b c d f g)
        as [(r & x & -> & _) | (ex & -> & [-> | ->] & _)] end; mrun; try done.
    destruct (claim_successful r); mrun; [done|].
    destruct (status_is 401 (status_code r)); mrun; done.
  - unfold waiting_branch. mrun.
    destruct (as_int (dict_get d "nextFrame" (JInt 0))) as [n|ex] eqn:En; mrun.
    2:{ destruct (dict_get d "nextFrame" (JInt 0)); simpl in En; try done;
          injection En as <-; mrun; done. }
    destruct (0 <? n); mrun; [|done].
    repeat (match goal with |- context [if ?b then _ else _] => destruct b end; mrun);
      done.
Qed.

Lemma task_step_preserves_wf (e : env) (tid : nat) (w : world) :
  registry_wf w → registry_wf (task_step e tid w).
Proof.
  intros Hwf. unfold task_step.
  destruct (tasks w !! tid) as [t|]; [|done].
  assert (Hloop : ∀ data v, registry_wf v → registry_wf (loop_test tid (owner t) data v)).
  { intros data v Hv. unfold loop_test, loop_epilogue.
    destruct (auto_claim_active data); apply set_task_state_wf; [done|].
    apply (registry_wf_same (with_AUTO_CLAIM_TASKS (delete (owner t)) v)); [done|done|].
    by apply registry_wf_delete. }
  destruct (state t) as [|[] data| |]; try done.
  - unfold task_prologue. destruct (negb _); [|by apply Hloop].
    apply set_task_state_wf. by apply (registry_wf_same w).
  - pose proof (iteration_keeps_registry e (owner t) data 0 w) as [Ht Hr].
    cbn zeta in *.
    destruct (iteration e (owner t) (mkFrame w data 0)) as [[[]|ex] f]; cbn in Ht, Hr.
    + apply set_task_state_wf. by apply (registry_wf_same w).
    + apply set_task_state_wf. unfold loop_epilogue.
      apply (registry_wf_same (with_AUTO_CLAIM_TASKS (delete (owner t)) (fw f)));
        [done|done|].
      apply registry_wf_delete. by apply (registry_wf_same w).
    + apply Hloop. by apply (registry_wf_same w).
    + apply set_task_state_wf. by apply (registry_wf_same w).
  - by apply Hloop.
Qed.

(** * Further properties of the code *)

(** ** What an iteration can and cannot do *)

(** The effect of an iteration on the control flow, the tasks, the registry
    and the user records. *)
Lemma iteration_effect
    (e : env) (user_id : N) (data : dict) (s0 : Q) (w : world) :
  ∃ c f,
    iteration e user_id (mkFrame w data s0) = (Returned c, f)
    ∧ tasks (fw f) = tasks w
    ∧ AUTO_CLAIM_TASKS (fw f) = AUTO_CLAIM_TASKS w
    ∧ match c with
      | BreakLoop =>
          user_data_files (fw f)
          = <[user_id := <["auto_claim_active" := JBool false]> data]> (user_data_files w)
      | Fallthrough | ContinueLoop =>
          user_data_files (fw f) = user_data_files w ∧ user_data f = data
      end.
Proof.
  unfold iteration, try_except, iteration_try, iteration_except.
  destruct (api_check_claimable (http_check e)) as [[p m] st].
  mrun.
  destruct (truthy (dict_get_none (default ∅ (user_data_files w !! user_id)) "auth_token"));
    mrun; [|(eexists _, _; split; [reflexivity|]; done)].
  destruct (status_is 401 st); mrun; [(eexists _, _; split; [reflexivity|]; done)|].
  destruct (truthy p) eqn:Hp; mrun.
  2:{ unfold failed_check_branch. mrun. destruct (status_is 429 st); mrun; (eexists _, _; split; [reflexivity|]; done). }
  destruct p as [| | | | |d]; mrun; try (eexists _, _; split; [reflexivity|]; done).
  destruct (truthy (dict_get d "isClaimable" JNull)); mrun.
  - unfold claiming_branch.
    destruct (api_get_token_info (http_info_before e)) as [p' m']. mrun.
    destruct (truthy p') eqn:Hp'; mrun; [|(eexists _, _; split; [reflexivity|]; done)].
    destruct p' as [| | | | |d']; mrun; try (eexists _, _; split; [reflexivity|]; done).
    match goal with |- context [claim_and_record ?a ?b ?c ?d ?f ?g] =>
      destruct (claim_and_record_shape a b c d f g)
        as [(r & x & -> & _) | (ex & -> & [-> | ->] & _)] end; mrun;
      try (eexists _, _; split; [reflexivity|]; done).
    destruct (claim_successful r); mrun; [(eexists _, _; split; [reflexivity|]; done)|].
    destruct (status_is 401 (status_code r)); mrun; (eexists _, _; split; [reflexivity|]; done).
  - unfold waiting_branch. mrun.
    destruct (as_int (dict_get d "nextFrame" (JInt 0))) as [n|ex] eqn:En; mrun.
    2:{ destruct (dict_get d "nextFrame" (JInt 0)); simpl in En; try done;
          injection En as <-; mrun; (eexists _, _; split; [reflexivity|]; done). }
    destruct (0 <? n); mrun; [|(eexists _, _; split; [reflexivity|]; done)].
    repeat (match goal with |- context [if ?b then _ else _] => destruct b end; mrun);
      (eexists _, _; split; [reflexivity|]; done).
Qed.

(** X1. No exception escapes an iteration of the loop.  The iteration
    either leaves the loop, having saved the task's copy of the user record
    with [auto_claim_active = False], or goes on, having written no user
    record and kept its copy; it never touches the tasks or the registry. *)
Theorem iteration_breaks_deactivated_or_goes_on_untouched
    (e : env) (user_id : N) (data : dict) (s0 : Q) (w : world) :
  ∃ c f,
    iteration e user_id (mkFrame w data s0) = (Returned c, f)
    ∧ tasks (fw f) = tasks w
    ∧ AUTO_CLAIM_TASKS (fw f) = AUTO_CLAIM_TASKS w
    ∧ match c with
      | BreakLoop =>
          user_data_files (fw f)
          = <[user_id := <["auto_claim_active" := JBool false]> data]> (user_data_files w)
      | Fallthrough | ContinueLoop =>
          user_data_files (fw f) = user_data_files w ∧ user_data f = data
      end.
Proof. apply iteration_effect. Qed.

(** ** One live scheduler per user *)

Lemma scheduler_inv_same (w w' : world) :
  tasks w' = tasks w → AUTO_CLAIM_TASKS w' = AUTO_CLAIM_TASKS w →
  (∀ u, persisted_active w' u = persisted_active w u) →
  scheduler_inv w → scheduler_inv w'.
Proof.
  intros Ht Hr Hp [Hwf Hlive]. split.
  - by apply (registry_wf_same w).
  - intros tid t. rewrite Ht, Hr, Hp. apply Hlive.
Qed.

Lemma scheduler_inv_running (w : world) (tid : nat) (t : task) :
  scheduler_inv w → tasks w !! tid = Some t → done t = false →
  task_running w (owner t) = true ∧ persisted_active w (owner t) = true.
Proof.
  intros [_ Hlive] Ht Hd. destruct (Hlive tid t Ht Hd) as [Hr Hp].
  split; [|done]. unfold task_running. by rewrite Hr, Ht, Hd.
Qed.

Lemma scheduler_inv_new_task (user_id : N) (w : world) :
  scheduler_inv w → task_running w user_id = false →
  persisted_active w user_id = true →
  scheduler_inv (with_new_task user_id w).
Proof.
  intros Hinv Hnr Hp. pose proof Hinv as [Hwf Hlive].
  split; [by apply with_new_task_wf|].
  intros tid t Ht Hd. unfold with_new_task in *. cbn in *.
  change (persisted_active _ (owner t)) with (persisted_active w (owner t)).
  apply lookup_app_Some in Ht as [Ht | [Hlen Ht]].
  - destruct (scheduler_inv_running w tid t Hinv Ht Hd) as [Hr Hpt].
    destruct (Hlive tid t Ht Hd) as [Hreg _].
    split; [|done]. rewrite lookup_insert_ne; [done|].
    intros Heq. rewrite Heq in Hnr. congruence.
  - apply list_lookup_singleton_Some in Ht as [Hz <-]. cbn.
    split; [|done]. rewrite lookup_insert_eq. f_equal. lia.
Qed.

Lemma at_most_one_by_index {A} (P : A → Prop) `{!∀ x, Decision (P x)} (l : list A) :
  (∀ i j x y, l !! i = Some x → l !! j = Some y → P x → P y → i = j) →
  (length (filter P l) ≤ 1)%nat.
Proof.
  induction l as [|a l IH]; intros Hidx; [cbn; lia|].
  rewrite filter_cons. destruct (decide (P a)) as [Ha|Ha].
  - assert (Hnone : filter P l = []).
    { destruct (filter P l) as [|y k] eqn:Hf; [done|]. exfalso.
      assert (Hy : y ∈ filter P l) by (rewrite Hf; constructor).
      apply list_elem_of_filter in Hy as [Py Hy].
      apply list_elem_of_lookup in Hy as [j Hj].
      specialize (Hidx 0%nat (S j) a y eq_refl Hj Ha Py). lia. }
    rewrite Hnone. cbn. lia.
  - apply IH. intros i j x y Hi Hj Px Py.
    specialize (Hidx (S i) (S j) x y Hi Hj Px Py). lia.
Qed.

Lemma scheduler_inv_one_live (w : world) (user_id : N) :
  scheduler_inv w → (live_tasks_of w user_id ≤ 1)%nat.
Proof.
  intros [_ Hlive]. unfold live_tasks_of. apply at_most_one_by_index.
  intros i j x y Hi Hj [Hox Hdx] [Hoy Hdy].
  destruct (Hlive i x Hi Hdx) as [Hri _]. destruct (Hlive j y Hj Hdy) as [Hrj _].
  rewrite Hox in Hri. rewrite Hoy in Hrj. congruence.
Qed.

Lemma scheduler_inv_running_flag (w : world) (user_id : N) :
  scheduler_inv w → task_running w user_id = true →
  persisted_active w user_id = true.
Proof.
  intros [Hwf Hlive] Hr. unfold task_running in Hr.
  destruct (AUTO_CLAIM_TASKS w !! user_id) as [tid|] eqn:Hreg; [|done].
  destruct (tasks w !! tid) as [t|] eqn:Ht; [|done].
  apply negb_true_iff in Hr.
  destruct (Hwf _ _ Hreg) as (t' & Ht' & Ho). simplify_eq.
  by destruct (Hlive tid t Ht Hr) as [_ Hp].
Qed.

Lemma scheduler_inv_write_flag (user_id : N) (d : dict) (w : world) :
  scheduler_inv w →
  (task_running w user_id = true → auto_claim_active d = true) →
  scheduler_inv (with_user_data_files <[user_id := d]> w).
Proof.
  intros Hinv Hd. pose proof Hinv as [Hwf Hlive]. split.
  - by apply (registry_wf_same w).
  - intros tid t Ht Hdone. cbn in Ht.
    destruct (Hlive tid t Ht Hdone) as [Hreg Hp]. split; [done|].
    destruct (scheduler_inv_running w tid t Hinv Ht Hdone) as [Hr _].
    unfold persisted_active, stored_user_data in *. cbn.
    destruct (decide (owner t = user_id)) as [Heq|Hne].
    + rewrite Heq in *. rewrite lookup_insert_eq. cbn. by apply Hd.
    + by rewrite lookup_insert_ne.
Qed.

Lemma auto_claim_active_set (d : dict) (b : bool) :
  auto_claim_active (<["auto_claim_active" := JBool b]> d) = b.
Proof. unfold auto_claim_active, dict_get. by rewrite lookup_insert_eq. Qed.

Lemma start_preserves_inv (user_id : N) (chat_id : Z) (w : world) :
  scheduler_inv w → scheduler_inv (core_autoclaim_start user_id chat_id w).2.
Proof.
  intros Hinv. unfold core_autoclaim_start. mrun.
  destruct (truthy _); mrun; [|by apply (scheduler_inv_same w)].
  destruct (auto_claim_active (default ∅ (user_data_files w !! user_id))
            && task_running w user_id) eqn:Hc; mrun;
    [by apply (scheduler_inv_same w)|].
  unfold create_task. mrun.
  set (d := <["auto_claim_active" := JBool true]>
              (default ∅ (user_data_files w !! user_id))).
  set (w0 := with_user_data_files <[user_id := d]> w).
  assert (Hinv0 : scheduler_inv w0).
  { apply scheduler_inv_write_flag; [done|]. intros _. apply auto_claim_active_set. }
  assert (Hp0 : persisted_active w0 user_id = true).
  { unfold persisted_active, stored_user_data. subst w0. cbn.
    rewrite lookup_insert_eq. apply auto_claim_active_set. }
  assert (Hnr : task_running w0 user_id = false).
  { change (task_running w0 user_id) with (task_running w user_id).
    destruct (task_running w user_id) eqn:Hr; [|done].
    pose proof (scheduler_inv_running_flag w user_id Hinv Hr) as Hp.
    unfold persisted_active, stored_user_data in Hp. rewrite Hp in Hc. done. }
  apply (scheduler_inv_same (with_new_task user_id w0)); [done|done|done|].
  by apply scheduler_inv_new_task.
Qed.

Lemma stop_preserves_inv (user_id : N) (chat_id : Z) (w : world) :
  scheduler_inv w → scheduler_inv (core_autoclaim_stop user_id chat_id w).2.
Proof.
  intros Hinv. pose proof Hinv as [Hwf Hlive].
  unfold core_autoclaim_stop. mrun.
  destruct (negb _ && negb _); mrun; [by apply (scheduler_inv_same w)|].
  set (d := <["auto_claim_active" := JBool false]>
              (default ∅ (user_data_files w !! user_id))).
  (* after the handler no task of the user is live, and the others are as before *)
  assert (Hgoal : ∀ w', registry_wf w' →
            AUTO_CLAIM_TASKS w' = delete user_id (AUTO_CLAIM_TASKS w) →
            user_data_files w' = <[user_id := d]> (user_data_files w) →
            (∀ tid t, tasks w' !! tid = Some t → done t = false →
                      tasks w !! tid = Some t
                      ∧ AUTO_CLAIM_TASKS w !! user_id ≠ Some tid) →
            scheduler_inv w').
  { intros w' Hwf' Hreg' Hf' Hsame. split; [done|].
    intros tid t Ht Hd. destruct (Hsame tid t Ht Hd) as [Ht0 Hnot].
    destruct (Hlive tid t Ht0 Hd) as [Hreg Hp].
    assert (Hne : owner t ≠ user_id) by (intros Heq; rewrite Heq in Hreg; done).
    split.
    - by rewrite Hreg', lookup_delete_ne.
    - unfold persisted_active, stored_user_data in *. by rewrite Hf', lookup_insert_ne. }
  destruct (task_running w user_id) eqn:Hr; mrun.
  - unfold task_running in Hr.
    destruct (AUTO_CLAIM_TASKS w !! user_id) as [tid0|] eqn:Hreg0; [|done]. mrun.
    unfold cancel_and_await. mrun.
    apply Hgoal; try done.
    + apply (registry_wf_same
               (with_AUTO_CLAIM_TASKS (delete user_id) (set_task_state tid0 Cancelled w)));
        [done|done|]. by apply registry_wf_delete, set_task_state_wf.
    + intros tid t Ht Hd. cbn in Ht.
      destruct (decide (tid0 = tid)) as [->|Hne].
      * rewrite list_lookup_alter_eq in Ht.
        destruct (tasks w !! tid); by simplify_eq/=.
      * rewrite list_lookup_alter_ne in Ht by done. split; [done|congruence].
  - apply Hgoal; try done.
    + apply (registry_wf_same (with_AUTO_CLAIM_TASKS (delete user_id) w)); [done|done|].
      by apply registry_wf_delete.
    + intros tid t Ht Hd. cbn in Ht. split; [done|]. intros Hreg.
      unfold task_running in Hr. by rewrite Hreg, Ht, Hd in Hr.
Qed.

Lemma task_step_preserves_inv (e : env) (tid0 : nat) (w : world) :
  scheduler_inv w → scheduler_inv (task_step e tid0 w).
Proof.
  intros Hinv. pose proof Hinv as [Hwf Hlive]. unfold task_step.
  destruct (tasks w !! tid0) as [t0|] eqn:Ht0; [|done].
  destruct (done t0) eqn:Hd0.
  { unfold done in Hd0. by destruct (state t0). }
  destruct (Hlive tid0 t0 Ht0 Hd0) as [Hreg0 Hp0].
  set (u := owner t0) in *.
  assert (Hgoal : ∀ w' s',
            tasks w' = alter (λ t, mkTask (owner t) s') tid0 (tasks w) →
            (AUTO_CLAIM_TASKS w' = AUTO_CLAIM_TASKS w
             ∨ AUTO_CLAIM_TASKS w' = delete u (AUTO_CLAIM_TASKS w)) →
            (∀ v, v ≠ u → user_data_files w' !! v = user_data_files w !! v) →
            (done (mkTask u s') = false →
             AUTO_CLAIM_TASKS w' = AUTO_CLAIM_TASKS w
             ∧ user_data_files w' = user_data_files w) →
            scheduler_inv w').
  { intros w' s' Ht' Hr' Hf' Hs'.
    assert (Hsub : ∀ v tid, AUTO_CLAIM_TASKS w' !! v = Some tid →
                            AUTO_CLAIM_TASKS w !! v = Some tid).
    { intros v tid. destruct Hr' as [-> | ->]; [done|].
      rewrite lookup_delete_Some. tauto. }
    split.
    - intros v tid Hv. destruct (Hwf v tid (Hsub v tid Hv)) as (t & Ht & Ho).
      rewrite Ht'. destruct (decide (tid0 = tid)) as [->|Hne].
      + rewrite list_lookup_alter_eq, Ht. cbn. eauto.
      + rewrite list_lookup_alter_ne by done. eauto.
    - intros tid t Ht Hd. rewrite Ht' in Ht.
      destruct (decide (tid0 = tid)) as [<-|Hne].
      + rewrite list_lookup_alter_eq, Ht0 in Ht. cbn in Ht. injection Ht as <-.
        destruct (Hs' Hd) as [Hr1 Hf1]. cbn.
        unfold persisted_active, stored_user_data in *. by rewrite Hr1, Hf1.
      + rewrite list_lookup_alter_ne in Ht by done.
        destruct (Hlive tid t Ht Hd) as [Hreg Hp].
        assert (Hou : owner t ≠ u) by (intros Heq; rewrite Heq in Hreg; congruence).
        split.
        * destruct Hr' as [-> | ->]; [done|]. by rewrite lookup_delete_ne.
        * unfold persisted_active, stored_user_data in *. by rewrite Hf'. }
  assert (Hloop : ∀ data v, tasks v = tasks w →
            AUTO_CLAIM_TASKS v = AUTO_CLAIM_TASKS w →
            user_data_files v = user_data_files w →
            scheduler_inv (loop_test tid0 u data v)).
  { intros data v Htv Hrv Hfv. unfold loop_test, loop_epilogue.
    destruct (auto_claim_active data).
    - eapply Hgoal; cbn; [by rewrite Htv | by left | by intros; rewrite Hfv | done].
    - eapply Hgoal; cbn; [by rewrite Htv | right; by rewrite Hrv
                          | by intros; rewrite Hfv | done]. }
  destruct (state t0) as [|[] data| |] eqn:Hst; try done.
  - unfold task_prologue. destruct (negb _); [|by apply Hloop].
    eapply Hgoal; cbn; [done | by left | | done].
    intros v Hv. by rewrite lookup_insert_ne.
  - destruct (iteration_effect e u data 0 w) as (c & f & -> & Htf & Hrf & Hc).
    destruct c.
    + destruct Hc as [Hff _].
      eapply Hgoal; cbn; [by rewrite Htf | by left | by intros; rewrite Hff | done].
    + eapply Hgoal; cbn; [by rewrite Htf | right; by rewrite Hrf | | done].
      intros v Hv. by rewrite Hc, lookup_insert_ne.
    + destruct Hc as [Hff _]. by apply Hloop.
  - by apply Hloop.
Qed.

Lemma restart_user_preserves_inv (user_id : N) (w : world) :
  scheduler_inv w → scheduler_inv (restart_user user_id w).2.
Proof.
  intros Hinv. rewrite restart_user_run. cbn.
  destruct (needs_restart w user_id) eqn:Hn; [|done].
  unfold needs_restart in Hn. apply andb_true_iff in Hn as [Hp Hr].
  apply negb_true_iff in Hr. by apply scheduler_inv_new_task.
Qed.

Lemma post_init_preserves_inv (listing : list string) (w : world) :
  scheduler_inv w → scheduler_inv (post_init listing w).2.
Proof.
  unfold post_init. revert w. induction listing as [|a l IH]; intros w Hinv; [done|].
  cbn [for_each]. unfold mbind, M_bind.
  assert (H1 : scheduler_inv (restart_from_file a w).2).
  { unfold restart_from_file, try_except.
    destruct (endswith a ".json"); [|done].
    destruct (negb (isdigit (first_field a))); [done|].
    unfold mbind, M_bind, lift_outcome.
    destruct (int_of_digits (first_field a)) as [u|ex]; [|done].
    pose proof (restart_user_preserves_inv u w Hinv) as H.
    by destruct (restart_user u w) as [[[]|ex] w1]. }
  destruct (restart_from_file a w) as [[[]|ex] w1]; [by apply IH | done].
Qed.

Lemma cancel_if_live_tasks (h tid : nat) (w : world) :
  tasks (cancel_if_live h w) !! tid
  = (λ t, if bool_decide (tid = h) && negb (done t)
          then mkTask (owner t) Cancelled else t) <$> tasks w !! tid.
Proof.
  unfold cancel_if_live. destruct (decide (tid = h)) as [->|Hne].
  - rewrite bool_decide_true by done. cbn [andb].
    destruct (tasks w !! h) as [t|] eqn:Ht; [|by rewrite Ht].
    destruct (done t) eqn:Hd.
    + rewrite Ht. cbn. by rewrite Hd.
    + unfold set_task_state. cbn. rewrite list_lookup_alter_eq, Ht. cbn.
      by rewrite Hd.
  - rewrite bool_decide_false by done. cbn [andb].
    assert (tasks w !! tid = id <$> tasks w !! tid) as Hid
      by (by destruct (tasks w !! tid)).
    destruct (tasks w !! h) as [t|]; [|by destruct (tasks w !! tid)].
    destruct (done t); [by destruct (tasks w !! tid)|].
    unfold set_task_state. cbn. rewrite list_lookup_alter_ne by done.
    by destruct (tasks w !! tid).
Qed.

Lemma cancel_if_live_rest (h : nat) (w : world) :
  AUTO_CLAIM_TASKS (cancel_if_live h w) = AUTO_CLAIM_TASKS w
  ∧ user_data_files (cancel_if_live h w) = user_data_files w
  ∧ claim_history_files (cancel_if_live h w) = claim_history_files w
  ∧ LAST_LONG_WAIT_NOTIFICATION (cancel_if_live h w) = LAST_LONG_WAIT_NOTIFICATION w
  ∧ sent (cancel_if_live h w) = sent w.
Proof.
  unfold cancel_if_live. destruct (tasks w !! h) as [t|]; [|done].
  by destruct (done t).
Qed.

(** Cancelling handles turns the live tasks among them into cancelled ones
    and touches nothing else. *)
Lemma cancel_handles_tasks (handles : list nat) (w : world) :
  let w' := foldr cancel_if_live w handles in
  AUTO_CLAIM_TASKS w' = AUTO_CLAIM_TASKS w
  ∧ user_data_files w' = user_data_files w
  ∧ claim_history_files w' = claim_history_files w
  ∧ LAST_LONG_WAIT_NOTIFICATION w' = LAST_LONG_WAIT_NOTIFICATION w
  ∧ sent w' = sent w
  ∧ ∀ tid, tasks w' !! tid
           = (λ t, if bool_decide (tid ∈ handles) && negb (done t)
                   then mkTask (owner t) Cancelled else t) <$> tasks w !! tid.
Proof.
  induction handles as [|h l IH]; cbn zeta.
  { repeat split; try done. intros tid. cbn. by destruct (tasks w !! tid). }
  cbn [foldr]. set (w1 := foldr cancel_if_live w l) in *.
  destruct IH as (Hr & Hf & Hh & Hl & Hs & Ht).
  destruct (cancel_if_live_rest h w1) as (Hr1 & Hf1 & Hh1 & Hl1 & Hs1).
  do 5 (split; [congruence|]).
  intros tid. rewrite cancel_if_live_tasks, Ht.
  destruct (tasks w !! tid) as [t|]; [|done]. cbn. f_equal.
  destruct (decide (tid = h)) as [->|Hne].
  - rewrite (bool_decide_true (h = h)) by done.
    rewrite (bool_decide_true (h ∈ h :: l)) by constructor. cbn [andb].
    destruct (bool_decide (h ∈ l)); cbn [andb]; [|done].
    destruct (done t) eqn:Hd; cbn; by rewrite ?Hd.
  - rewrite (bool_decide_false (tid = h)) by done. cbn [andb].
    rewrite (bool_decide_ext (tid ∈ h :: l) (tid ∈ l)); [done|].
    rewrite elem_of_cons. tauto.
Qed.

Lemma elem_of_handles (m : gmap N nat) (tid : nat) :
  tid ∈ (map_to_list m).*2 ↔ ∃ user_id, m !! user_id = Some tid.
Proof.
  rewrite list_elem_of_fmap. split.
  - intros [[u x] [-> Hin]]. exists u. by apply elem_of_map_to_list in Hin.
  - intros [u Hu]. exists (u, tid). split; [done|]. by apply elem_of_map_to_list.
Qed.

Lemma cleanup_after_shutdown_effect (w : world) :
  let w' := cleanup_after_shutdown w in
  AUTO_CLAIM_TASKS w' = ∅
  ∧ user_data_files w' = user_data_files w
  ∧ claim_history_files w' = claim_history_files w
  ∧ LAST_LONG_WAIT_NOTIFICATION w' = LAST_LONG_WAIT_NOTIFICATION w
  ∧ sent w' = sent w
  ∧ ∀ tid, tasks w' !! tid
           = (λ t, if bool_decide (tid ∈ (map_to_list (AUTO_CLAIM_TASKS w)).*2)
                      && negb (done t)
                   then mkTask (owner t) Cancelled else t) <$> tasks w !! tid.
Proof.
  cbn zeta. unfold cleanup_after_shutdown.
  destruct (Nat.eqb (size (AUTO_CLAIM_TASKS w)) 0) eqn:Hsz.
  - apply Nat.eqb_eq, map_size_empty_iff in Hsz.
    split; [done|]. do 4 (split; [done|]). intros tid.
    destruct (tasks w !! tid) as [t|]; [|done]. cbn. f_equal.
    rewrite bool_decide_false; [done|].
    rewrite elem_of_handles. intros [u Hu]. rewrite Hsz in Hu.
    by rewrite lookup_empty in Hu.
  - destruct (cancel_handles_tasks (map_to_list (AUTO_CLAIM_TASKS w)).*2 w)
      as (Hr & Hf & Hh & Hl & Hs & Ht).
    cbn. split; [done|]. do 4 (split; [done|]). done.
Qed.

Lemma cleanup_preserves_inv (w : world) :
  scheduler_inv w → scheduler_inv (cleanup_after_shutdown w).
Proof.
  intros [Hwf Hlive].
  destruct (cleanup_after_shutdown_effect w) as (Hr & Hf & Hh & Hl & Hs & Ht).
  split.
  - intros u tid Hu. rewrite Hr in Hu. by rewrite lookup_empty in Hu.
  - intros tid t' Htid Hd. rewrite Ht in Htid.
    destruct (tasks w !! tid) as [t|] eqn:Hw; [|done]. cbn in Htid.
    destruct (done t) eqn:Hdt.
    + rewrite andb_false_r in Htid. simplify_eq. congruence.
    + destruct (Hlive tid t Hw Hdt) as [Hreg _].
      rewrite bool_decide_true in Htid by (apply elem_of_handles; eauto).
      cbn in Htid. by simplify_eq.
Qed.

(** The handlers that answer a status query write nothing. *)
Lemma core_autoclaim_status_run (user_id : N) (s : session) :
  core_autoclaim_status user_id s
  = (Returned tt,
     mkSession (sworld s)
       (said s ++ [if persisted_active (sworld s) user_id
                   then if task_running (sworld s) user_id
                        then ReportActive else ReportDesynced
                   else ReportInactive])).
Proof.
  unfold core_autoclaim_status, persisted_active, stored_user_data. srun.
  destruct (auto_claim_active _); cbn; [|done].
  by destruct (task_running _ _).
Qed.

Lemma core_claim_status_action_world (e : env) (user_id : N) (s : session) :
  sworld (core_claim_status_action e user_id s).2 = sworld s.
Proof.
  unfold core_claim_status_action. srun.
  destruct (truthy _); srun; [|done].
  destruct (api_check_claimable (http_check e)) as [[p m] st]. srun.
  destruct (truthy p) eqn:Hp; srun; [|done].
  destruct p as [| | | | |d]; srun; try done.
  destruct (truthy (dict_get d "isClaimable" (JBool false))); srun; [done|].
  destruct (as_int (dict_get d "nextFrame" (JInt 0))) as [n|ex]; srun; [|done].
  destruct (0 <? n); srun; [|done].
  by destruct (0 <? n - time_ms e).
Qed.

(** [set_token_command] writes at most the user's token. *)
Lemma set_token_command_world (profile : http_result) (user_id : N) (chat_id : Z)
    (args : list string) (s : session) :
  let w := sworld s in
  let w' := sworld (set_token_command profile user_id chat_id args s).2 in
  w' = w
  ∨ ∃ token rest, args = token :: rest ∧ String.prefix "ey" token = true
      ∧ w' = with_user_data_files
               <[user_id := <["auth_token" := JStr token]> (stored_user_data w user_id)]> w.
Proof.
  cbn zeta. unfold set_token_command.
  destruct ((chat_id =? 0) || (user_id =? 0)%N); [by left|].
  destruct args as [|token rest]; [by left|].
  destruct (String.prefix "ey" token) eqn:Hp; cbn [negb]; [|by left].
  right. exists token, rest. split; [done|]. split; [done|].
  unfold stored_user_data. srun.
  destruct (api_get_user_profile profile) as [p m]. srun.
  destruct (truthy p) eqn:Ht; srun; [|done].
  destruct p as [| | | | |d]; srun; done.
Qed.

Lemma auto_claim_active_other_key (d : dict) (k : string) (v : json) :
  k ≠ "auto_claim_active" →
  auto_claim_active (<[k := v]> d) = auto_claim_active d.
Proof.
  intros Hk. unfold auto_claim_active, dict_get. by rewrite lookup_insert_ne.
Qed.

Lemma set_token_preserves_inv (profile : http_result) (user_id : N) (chat_id : Z)
    (args : list string) (s : session) :
  scheduler_inv (sworld s) →
  scheduler_inv (sworld (set_token_command profile user_id chat_id args s).2).
Proof.
  intros Hinv.
  destruct (set_token_command_world profile user_id chat_id args s)
    as [-> | (token & rest & _ & _ & ->)]; [done|].
  apply scheduler_inv_write_flag; [done|]. intros Hr.
  rewrite auto_claim_active_other_key by done.
  by apply scheduler_inv_running_flag.
Qed.

(** The manual claim and the history view write no user record and touch
    neither the tasks nor the registry. *)
Lemma core_claim_action_keeps_scheduler (e : env) (user_id : N) (chat_id : Z) (w : world) :
  let w' := (core_claim_action e user_id chat_id w).2 in
  tasks w' = tasks w ∧ AUTO_CLAIM_TASKS w' = AUTO_CLAIM_TASKS w
  ∧ user_data_files w' = user_data_files w.
Proof.
  cbn zeta. unfold core_claim_action. mrun.
  destruct (truthy _); mrun; [|done].
  destruct (api_get_token_info (http_info_before e)) as [p m]. mrun.
  destruct (truthy p) eqn:Hp; mrun; [|done].
  destruct p as [| | | | |d]; mrun; try done.
  match goal with |- context [claim_and_record ?a ?b ?c ?d ?f ?g] =>
    destruct (claim_and_record_shape a b c d f g)
      as [(r & x & -> & _) | (ex & -> & _)] end; mrun; [|done].
  by destruct (claim_successful r).
Qed.

Lemma core_history_action_keeps_scheduler (user_id : N) (chat_id : Z) (w : world) :
  let w' := (core_history_action user_id chat_id w).2 in
  tasks w' = tasks w ∧ AUTO_CLAIM_TASKS w' = AUTO_CLAIM_TASKS w
  ∧ user_data_files w' = user_data_files w.
Proof.
  cbn zeta. unfold core_history_action, load_claim_history. mrun.
  by destruct (default [] (claim_history_files w !! user_id)).
Qed.

Lemma scheduler_inv_same_files (w w' : world) :
  tasks w' = tasks w ∧ AUTO_CLAIM_TASKS w' = AUTO_CLAIM_TASKS w
  ∧ user_data_files w' = user_data_files w →
  scheduler_inv w → scheduler_inv w'.
Proof.
  intros (Ht & Hr & Hf). apply scheduler_inv_same; [done|done|].
  intros u. unfold persisted_active, stored_user_data. by rewrite Hf.
Qed.

Lemma step_preserves_inv (w w' : world) :
  step w w' → scheduler_inv w → scheduler_inv w'.
Proof.
  intros Hstep Hinv. destruct Hstep.
  - by apply start_preserves_inv.
  - by apply stop_preserves_inv.
  - by rewrite core_autoclaim_status_run.
  - by rewrite core_claim_status_action_world.
  - by apply (scheduler_inv_same_files w), Hinv; [apply core_claim_action_keeps_scheduler].
  - by apply (scheduler_inv_same_files w), Hinv; [apply core_history_action_keeps_scheduler].
  - by apply (set_token_preserves_inv _ _ _ _ (mkSession w said0)).
  - by apply task_step_preserves_inv.
  - by apply post_init_preserves_inv.
  - by apply cleanup_preserves_inv.
Qed.

Lemma fresh_process_inv (w : world) : fresh_process w → scheduler_inv w.
Proof.
  intros [Ht Hr]. split.
  - intros u tid Hu. rewrite Hr in Hu. by rewrite lookup_empty in Hu.
  - intros tid t Htid. rewrite Ht in Htid. done.
Qed.

Lemma steps_preserve_inv (w w' : world) :
  rtc step w w' → scheduler_inv w → scheduler_inv w'.
Proof.
  induction 1 as [w|w w1 w2 Hs _ IH]; [done|].
  intros Hinv. by apply IH, (step_preserves_inv w).
Qed.

(** X2. One scheduler per user.  In every state the process reaches from
    its start, by handlers, task resumptions, restart passes and shutdown
    hooks in any order and with any answers of the service, every user has
    at most one task that is not done, and such a task is the handle the
    registry holds for its user, whose persisted flag is on. *)
Theorem one_live_task_per_user (w0 w : world) (user_id : N) :
  fresh_process w0 → rtc step w0 w →
  (live_tasks_of w user_id ≤ 1)%nat
  ∧ ∀ tid t, tasks w !! tid = Some t → done t = false →
             AUTO_CLAIM_TASKS w !! owner t = Some tid
             ∧ persisted_active w (owner t) = true.
Proof.
  intros Hf Hr.
  pose proof (steps_preserve_inv w0 w Hr (fresh_process_inv w0 Hf)) as Hinv.
  split; [by apply scheduler_inv_one_live|]. apply Hinv.
Qed.

Lemma one_live_task_per_user_witness :
  let w1 := (post_init (os_listdir world_at_boot) world_at_boot).2 in
  let w2 := (core_autoclaim_start 7001 7001 w1).2 in
  let w3 := task_step env_balance_gain 0 w2 in
  (live_tasks_of w3 7001 ≤ 1)%nat
  ∧ ∀ tid t, tasks w3 !! tid = Some t → done t = false →
             AUTO_CLAIM_TASKS w3 !! owner t = Some tid
             ∧ persisted_active w3 (owner t) = true.
Proof.
  cbn zeta. apply (one_live_task_per_user world_at_boot).
  - split; reflexivity.
  - eapply rtc_l; [apply (StepPostInit _ (os_listdir world_at_boot))|].
    eapply rtc_l; [apply (StepStart _ 7001%N 7001)|].
    eapply rtc_l; [apply (StepTask _ env_balance_gain 0%nat)|].
    apply rtc_refl.
Defined.

(** ** Shutdown *)

Lemma no_live_task_count (w : world) (user_id : N) :
  (∀ tid t, tasks w !! tid = Some t → done t = true) → live_tasks_of w user_id = 0%nat.
Proof.
  intros Hall. unfold live_tasks_of.
  destruct (filter _ (tasks w)) as [|t k] eqn:Hf; [done|].
  assert (Hin : t ∈ filter (λ t, owner t = user_id ∧ done t = false) (tasks w))
    by (rewrite Hf; constructor).
  apply list_elem_of_filter in Hin as [[_ Hd] Hin].
  apply list_elem_of_lookup in Hin as [tid Ht].
  rewrite (Hall tid t Ht) in Hd. done.
Qed.

Lemma task_running_no_handle (w : world) (user_id : N) :
  AUTO_CLAIM_TASKS w = ∅ → task_running w user_id = false.
Proof. intros Hr. unfold task_running. by rewrite Hr, lookup_empty. Qed.

(** X3. The shutdown hook, run in a state the process can reach, leaves no
    task alive and an empty registry, and writes no file: the users whose
    persisted flag was on are exactly those the next restart pass will
    start again. *)
Theorem shutdown_cancels_every_scheduler (w0 w : world) :
  fresh_process w0 → rtc step w0 w →
  let w' := cleanup_after_shutdown w in
  AUTO_CLAIM_TASKS w' = ∅
  ∧ (∀ tid t, tasks w' !! tid = Some t → done t = true)
  ∧ (∀ user_id, live_tasks_of w' user_id = 0%nat)
  ∧ user_data_files w' = user_data_files w
  ∧ claim_history_files w' = claim_history_files w
  ∧ sent w' = sent w
  ∧ ∀ user_id, needs_restart w' user_id = persisted_active w user_id.
Proof.
  intros Hf Hr. cbn zeta.
  pose proof (steps_preserve_inv w0 w Hr (fresh_process_inv w0 Hf)) as [Hwf Hlive].
  destruct (cleanup_after_shutdown_effect w) as (Hreg & Hfiles & Hh & Hl & Hs & Ht).
  assert (Hall : ∀ tid t, tasks (cleanup_after_shutdown w) !! tid = Some t → done t = true).
  { intros tid t' Htid. rewrite Ht in Htid.
    destruct (tasks w !! tid) as [t|] eqn:Hw; [|done]. cbn in Htid.
    destruct (done t) eqn:Hdt.
    - rewrite andb_false_r in Htid. by simplify_eq.
    - destruct (Hlive tid t Hw Hdt) as [Hu _].
      rewrite bool_decide_true in Htid by (apply elem_of_handles; eauto).
      cbn in Htid. by simplify_eq. }
  split; [done|]. split; [done|].
  split; [intros u; by apply no_live_task_count|].
  do 3 (split; [done|]).
  intros u. unfold needs_restart. rewrite task_running_no_handle by done.
  unfold persisted_active, stored_user_data. rewrite Hfiles. by rewrite andb_true_r.
Qed.

Lemma shutdown_cancels_every_scheduler_witness :
  let w := (post_init (os_listdir world_at_boot) world_at_boot).2 in
  let w' := cleanup_after_shutdown w in
  AUTO_CLAIM_TASKS w' = ∅
  ∧ (∀ tid t, tasks w' !! tid = Some t → done t = true)
  ∧ (∀ user_id, live_tasks_of w' user_id = 0%nat)
  ∧ user_data_files w' = user_data_files w
  ∧ claim_history_files w' = claim_history_files w
  ∧ sent w' = sent w
  ∧ ∀ user_id, needs_restart w' user_id = persisted_active w user_id.
Proof.
  cbn zeta. apply (shutdown_cancels_every_scheduler world_at_boot).
  - split; reflexivity.
  - eapply rtc_l; [apply (StepPostInit _ (os_listdir world_at_boot))|]. apply rtc_refl.
Defined.

(** ** The HTTP layer under the wrappers *)

Lemma dict_truthy_insert (k : string) (v : json) (d : dict) :
  dict_truthy (<[k := v]> d) = true.
Proof.
  unfold dict_truthy. apply negb_true_iff, Nat.eqb_neq.
  intros Hs. apply map_size_empty_iff in Hs.
  by apply insert_non_empty in Hs.
Qed.

Lemma dict_truthy_singleton (k : string) (v : json) :
  dict_truthy ({[k := v]} : dict) = true.
Proof. unfold dict_truthy. by rewrite map_size_singleton. Qed.

Lemma make_api_request_no_response (raises_for_status : Z → bool) (method : string)
    (t : transport) :
  no_response t = true →
  String.eqb (upper method) "GET" || String.eqb (upper method) "POST" = true →
  make_api_request raises_for_status method t = (Some (error_dict (failure_text t)), None).
Proof.
  intros Ht Hm. unfold make_api_request. rewrite Hm. by destruct t.
Qed.

(** X4. When the HTTP client obtains no response (a timeout, a connection
    failure or any other exception), nothing is raised: each reading
    wrapper returns no payload and the message [Error API: <text>], and the
    claim wrapper returns a result that does not count as a successful
    claim, with no status code. *)
Theorem no_response_is_reported_not_raised (raises_for_status : Z → bool) (t : transport) :
  no_response t = true →
  let answer_get := make_api_request raises_for_status "GET" t in
  let answer_post := make_api_request raises_for_status "POST" t in
  let text := JStr (failure_text t) in
  api_get_user_profile answer_get = (JNull, MsgError "Error API" text)
  ∧ api_get_token_info answer_get = (JNull, MsgError "Error API" text)
  ∧ api_check_claimable answer_get = (JNull, MsgError "Error API" text, None)
  ∧ (api_claim_airdrop answer_post).1.2 = MsgError "Error API Internal" text
  ∧ (api_claim_airdrop answer_post).2 = None
  ∧ claim_succeeded (api_claim_airdrop answer_post).1.1 = false.
Proof.
  intros Ht. cbn zeta.
  rewrite !make_api_request_no_response by done.
  unfold api_get_user_profile, api_get_token_info, api_check_claimable,
    api_claim_airdrop, claim_succeeded, error_dict.
  rewrite dict_truthy_singleton. cbn.
  unfold dict_has, dict_get_none, dict_get, json_is_str.
  rewrite !lookup_singleton_ne by done. rewrite !lookup_singleton_eq. cbn.
  rewrite dict_truthy_singleton. cbn. by rewrite !lookup_singleton_ne by done.
Qed.

Lemma no_response_is_reported_not_raised_witness :
  let answer_get := make_api_request (λ s, 400 <=? s) "GET" TimedOut in
  let answer_post := make_api_request (λ s, 400 <=? s) "POST" TimedOut in
  let text := JStr (failure_text TimedOut) in
  api_get_user_profile answer_get = (JNull, MsgError "Error API" text)
  ∧ api_get_token_info answer_get = (JNull, MsgError "Error API" text)
  ∧ api_check_claimable answer_get = (JNull, MsgError "Error API" text, None)
  ∧ (api_claim_airdrop answer_post).1.2 = MsgError "Error API Internal" text
  ∧ (api_claim_airdrop answer_post).2 = None
  ∧ claim_succeeded (api_claim_airdrop answer_post).1.1 = false.
Proof. apply (no_response_is_reported_not_raised (λ s, 400 <=? s) TimedOut). reflexivity. Defined.







Lemma api_claim_airdrop_dead_branch (r : http_result) :
  (api_claim_airdrop r).1.2 ≠ empty_response_completion.
Proof.
  destruct r as [[d|] st]; [|done]. unfold api_claim_airdrop.
  destruct (dict_truthy d); [|done].
  destruct (_ && _ && _).
  { cbn. unfold message_or. by destruct (d !! "message"). }
  destruct (_ && _); [done|].
  destruct (dict_has d "message") eqn:Hm; [done|].
  destruct (dict_has d "error_message"); [done|].
  unfold dict_has in Hm. unfold dict_get_none, dict_get.
  destruct (d !! "message"); [done|]. cbn.
  by destruct (status_is 200 st).
Qed.

(** X6. The last branch of [api_claim_airdrop] is never taken: no answer
    makes the wrapper return its text.  An empty body of a response that
    [raise_for_status] accepts is reported as a refused claim, [Gagal Klaim:
    Respons kosong dari server. (Status: <code>)], and does not count as a
    successful claim. *)
Theorem empty_claim_answer_is_a_failure (raises_for_status : Z → bool) (status : Z) :
  raises_for_status status = false →
  let answer := make_api_request raises_for_status "POST" (Responded status BodyEmpty) in
  (∀ r, (api_claim_airdrop r).1.2 ≠ empty_response_completion)
  ∧ (api_claim_airdrop answer).1.2
    = MsgFailed "Gagal Klaim" (JStr "Respons kosong dari server.") (Some status)
  ∧ (api_claim_airdrop answer).2 = Some status
  ∧ claim_succeeded (api_claim_airdrop answer).1.1 = false.
Proof.
  intros Hr. cbn zeta. split; [apply api_claim_airdrop_dead_branch|].
  unfold make_api_request.
  change (String.eqb (upper "POST") "GET" || String.eqb (upper "POST") "POST") with true.
  cbn iota. rewrite Hr. unfold api_claim_airdrop, status_is.
  by destruct (status =? 200), (status =? 400); vm_compute.
Qed.

Lemma empty_claim_answer_is_a_failure_witness :
  let answer := make_api_request (λ s, 400 <=? s) "POST" (Responded 200 BodyEmpty) in
  (∀ r, (api_claim_airdrop r).1.2 ≠ empty_response_completion)
  ∧ (api_claim_airdrop answer).1.2
    = MsgFailed "Gagal Klaim" (JStr "Respons kosong dari server.") (Some 200)
  ∧ (api_claim_airdrop answer).2 = Some 200
  ∧ claim_succeeded (api_claim_airdrop answer).1.1 = false.
Proof. apply (empty_claim_answer_is_a_failure (λ s, 400 <=? s) 200). reflexivity. Defined.

(** ** The other ways out of an iteration *)

(** X7. A claim the service refuses, in the loop.  One entry with
    [success = False], zero gains and the balances read before the claim is
    appended.  With status 401 the task says so, saves
    [auto_claim_active = False] and ends after the short pause before the
    claim; with any other status it stays alive and sleeps
    [uniform(5, 10)] minutes. *)
Theorem refused_claim_in_the_loop
    (e : env) (tid : nat) (user_id : N) (data : dict) (w : world) (sb gb db : json) :
  tasks w !! tid = Some (mkTask user_id (Suspended InRemoteCall data)) →
  has_credential w user_id = true →
  check_says_claimable e = true →
  before_amounts e = Some (sb, gb, db) →
  claim_data_is_true e = false →
  let w' := task_step e tid w in
  let pause := uniform 5 15 (rand e (S (random_calls w))) in
  let next := uniform (5 * 60) (10 * 60) (rand e (S (S (random_calls w)))) in
  let told := [(Z.of_N user_id, NClaimDetected);
               (Z.of_N user_id, NClaimFailed (claim_message e))] in
  history_of w' user_id
  = history_of w user_id
    ++ [mkEntry (now_wib e) false (claim_message e) 0 0 0 sb gb db]
  ∧ if status_is 401 (claim_status e)
    then sent w' = sent w ++ told ++ [(Z.of_N user_id, NStoppedTokenInvalidOnClaim)]
         ∧ persisted_active w' user_id = false
         ∧ task_state_of w' tid = Some Finished
         ∧ AUTO_CLAIM_TASKS w' !! user_id = None
         ∧ slept w' = slept w ++ [pause]
    else sent w' = sent w ++ told ++ [(Z.of_N user_id, NCycleDone (minutes_of next))]
         ∧ user_data_files w' = user_data_files w
         ∧ task_state_of w' tid = Some (Suspended InSleep data)
         ∧ slept w' = slept w ++ [pause; next].
Proof.
  intros Ht Hc Hk Hb Hno. cbn zeta.
  apply amounts_of_dict in Hb as (d & Hp & Htr & -> & -> & ->).
  apply check_says_claimable_inv in Hk as (p & m & st & Hk & H401 & Hpt & Hcl).
  unfold task_step. rewrite Ht. cbn [owner state].
  unfold iteration, try_except, iteration_try.
  unfold has_credential, stored_user_data in Hc.
  rewrite Hk. mrun. rewrite Hc. mrun. rewrite H401, Hpt. mrun.
  unfold dict_get_none in Hcl. rewrite Hcl. mrun.
  unfold claiming_branch.
  destruct (api_get_token_info (http_info_before e)) as [p' m']. simpl in Hp. subst p'.
  mrun. rewrite Htr. mrun.
  rewrite claim_and_record_failed by done. mrun.
  destruct (status_is 401 (claim_status e)); mrun.
  - unfold task_state_of, persisted_active, stored_user_data, history_of. cbn.
    rewrite !lookup_insert_eq, lookup_delete_eq, list_lookup_alter_eq, Ht. cbn.
    rewrite auto_claim_active_set. rewrite <- !app_assoc. by repeat split.
  - unfold task_state_of, history_of. cbn.
    rewrite !lookup_insert_eq, list_lookup_alter_eq, Ht. cbn.
    rewrite <- !app_assoc. by repeat split.
Qed.

Lemma refused_claim_in_the_loop_witness :
  let e := env_too_early in
  let w := world_in_iteration in
  let w' := task_step e 0 w in
  history_of w' sample_user
  = [mkEntry (now_wib e) false (claim_message e) 0 0 0 (JInt 10) (JInt 2) (JInt 1)]
  ∧ claim_message e = MsgText "Gagal Klaim: Waktu klaim token terlalu dini."
  ∧ task_state_of w' 0 = Some (Suspended InSleep (token_record (Some true)))
  ∧ length (slept w') = 2%nat.
Proof.
  cbn zeta.
  pose proof (refused_claim_in_the_loop env_too_early 0 sample_user
                (token_record (Some true)) world_in_iteration (JInt 10) (JInt 2) (JInt 1)
                eq_refl eq_refl eq_refl eq_refl eq_refl) as [H1 H2].
  cbn zeta in H2. change (status_is 401 (claim_status env_too_early)) with false in H2.
  destruct H2 as (_ & _ & H3 & H4).
  split; [exact H1|]. split; [reflexivity|]. split; [exact H3|]. by rewrite H4.
Defined.

(** X8. When a claim is possible and the balances cannot be read before it,
    the iteration tells the user, sleeps [uniform(3, 7)] minutes and goes
    straight to the test of the loop: nothing is claimed or recorded, no
    user record is written, and the next iteration starts from the copy of
    the user record the task already held, not from the stored one. *)
Theorem unread_balance_skips_the_cycle
    (e : env) (tid : nat) (user_id : N) (data : dict) (w : world) :
  tasks w !! tid = Some (mkTask user_id (Suspended InRemoteCall data)) →
  has_credential w user_id = true →
  check_says_claimable e = true →
  truthy (api_get_token_info (http_info_before e)).1 = false →
  let w' := task_step e tid w in
  sent w' = sent w ++ [(Z.of_N user_id, NBalanceBeforeFailed)]
  ∧ slept w' = slept w ++ [uniform (3 * 60) (7 * 60) (rand e (S (random_calls w)))]
  ∧ claim_history_files w' = claim_history_files w
  ∧ user_data_files w' = user_data_files w
  ∧ task_state_of w' tid
    = Some (if auto_claim_active data then Suspended InRemoteCall data else Finished).
Proof.
  intros Ht Hc Hk Hb. cbn zeta.
  apply check_says_claimable_inv in Hk as (p & m & st & Hk & H401 & Hpt & Hcl).
  unfold task_step. rewrite Ht. cbn [owner state].
  unfold iteration, try_except, iteration_try.
  unfold has_credential, stored_user_data in Hc.
  rewrite Hk. mrun. rewrite Hc. mrun. rewrite H401, Hpt. mrun.
  unfold dict_get_none in Hcl. rewrite Hcl. mrun.
  unfold claiming_branch.
  destruct (api_get_token_info (http_info_before e)) as [p' m']. simpl in Hb.
  rewrite Hb. mrun. unfold loop_test, task_state_of.
  destruct (auto_claim_active data); cbn; rewrite list_lookup_alter_eq, Ht; by repeat split.
Qed.

Lemma unread_balance_skips_the_cycle_witness :
  let w' := task_step env_balance_unread 0 world_in_iteration in
  sent w' = [(Z.of_N sample_user, NBalanceBeforeFailed)]
  ∧ claim_history_files w' = ∅
  ∧ task_state_of w' 0 = Some (Suspended InRemoteCall (token_record (Some true))).
Proof.
  cbn zeta.
  pose proof (unread_balance_skips_the_cycle env_balance_unread 0 sample_user
                (token_record (Some true)) world_in_iteration
                eq_refl eq_refl eq_refl eq_refl) as (H1 & _ & H3 & _ & H5).
  split; [exact H1|]. split; [exact H3|]. exact H5.
Defined.

(** X9. A task that finds no token when an iteration begins stops for good,
    whatever the service would have answered: one notice, the task's copy
    of the user record saved with [auto_claim_active = False], no sleep, no
    history entry, the handle gone from the registry. *)
Theorem lost_token_stops_the_loop
    (e : env) (tid : nat) (user_id : N) (data : dict) (w : world) :
  tasks w !! tid = Some (mkTask user_id (Suspended InRemoteCall data)) →
  has_credential w user_id = false →
  let w' := task_step e tid w in
  sent w' = sent w ++ [(Z.of_N user_id, NStoppedConfigError)]
  ∧ user_data_files w'
    = <[user_id := <["auto_claim_active" := JBool false]> data]> (user_data_files w)
  ∧ persisted_active w' user_id = false
  ∧ task_state_of w' tid = Some Finished
  ∧ AUTO_CLAIM_TASKS w' !! user_id = None
  ∧ slept w' = slept w
  ∧ claim_history_files w' = claim_history_files w.
Proof.
  intros Ht Hc. cbn zeta.
  unfold task_step. rewrite Ht. cbn [owner state].
  unfold iteration, try_except, iteration_try, iteration_except.
  unfold has_credential, stored_user_data in Hc.
  mrun. rewrite Hc. mrun.
  unfold task_state_of, persisted_active, stored_user_data. cbn.
  rewrite lookup_insert_eq, lookup_delete_eq, list_lookup_alter_eq, Ht. cbn.
  rewrite auto_claim_active_set. by repeat split.
Qed.

Lemma lost_token_stops_the_loop_witness :
  let w' := task_step env_balance_gain 0 world_token_removed in
  sent w' = [(Z.of_N sample_user, NStoppedConfigError)]
  ∧ persisted_active w' sample_user = false
  ∧ task_state_of w' 0 = Some Finished
  ∧ claim_history_files w' = ∅.
Proof.
  cbn zeta.
  pose proof (lost_token_stops_the_loop env_balance_gain 0 sample_user
                (token_record (Some true)) world_token_removed
                eq_refl eq_refl) as (H1 & _ & H3 & H4 & _ & _ & H7).
  split; [exact H1|]. split; [exact H3|]. split; [exact H4|]. exact H7.
Defined.

(** X10. An eligibility answer whose [nextFrame] is not a number (a string,
    or [null]) does not end the task: the comparison raises, the last
    [except] clause reports the error, and the task sleeps
    [uniform(2, 5)] minutes with nothing written. *)
Theorem malformed_schedule_backs_off
    (e : env) (tid : nat) (user_id : N) (data : dict) (w : world)
    (next_frame : json) :
  tasks w !! tid = Some (mkTask user_id (Suspended InRemoteCall data)) →
  has_credential w user_id = true →
  eligibility_of e = Some (false, next_frame) →
  as_int next_frame = Raised TypeError →
  let w' := task_step e tid w in
  sent w' = sent w ++ [(Z.of_N user_id, NUnexpectedError TypeError)]
  ∧ slept w' = slept w ++ [uniform (2 * 60) (5 * 60) (rand e (S (random_calls w)))]
  ∧ task_state_of w' tid = Some (Suspended InSleep data)
  ∧ user_data_files w' = user_data_files w
  ∧ claim_history_files w' = claim_history_files w.
Proof.
  intros Ht Hc He Hex. cbn zeta.
  unfold eligibility_of in He.
  unfold task_step. rewrite Ht. cbn [owner state].
  unfold iteration, try_except, iteration_try, iteration_except.
  destruct (api_check_claimable (http_check e)) as [[p m] st].
  destruct (status_is 401 st) eqn:H401; [done|].
  destruct p as [| | | | |d]; try done.
  destruct (dict_truthy d) eqn:Hd; [|done].
  injection He as Hcl Hnf. unfold dict_get_none in Hcl.
  unfold has_credential, stored_user_data in Hc.
  mrun. rewrite Hc. mrun. rewrite ?Hd. mrun. rewrite Hcl. mrun. rewrite ?Hd.
  unfold waiting_branch. mrun. rewrite Hnf.
  rewrite Hex. mrun.
  unfold task_state_of. cbn. rewrite list_lookup_alter_eq, Ht. by repeat split.
Qed.

Lemma malformed_schedule_backs_off_witness :
  let w' := task_step env_next_frame_null 0 world_in_iteration in
  sent w' = [(Z.of_N sample_user, NUnexpectedError TypeError)]
  ∧ task_state_of w' 0 = Some (Suspended InSleep (token_record (Some true)))
  ∧ length (slept w') = 1%nat.
Proof.
  cbn zeta.
  pose proof (malformed_schedule_backs_off env_next_frame_null 0 sample_user
                (token_record (Some true)) world_in_iteration JNull
                eq_refl eq_refl eq_refl eq_refl) as (H1 & H2 & H3 & _).
  split; [exact H1|]. split; [exact H3|]. by rewrite H2.
Defined.

(** ** The pace of the loop *)

Lemma iteration_sleeps (e : env) (user_id : N) (data : dict) (s0 : Q) (w : world) :
  (∀ n, (0 <= rand e n <= 1)%Q) →
  ∃ c f,
    iteration e user_id (mkFrame w data s0) = (Returned c, f)
    ∧ (c ≠ BreakLoop →
       ∃ pauses x, slept (fw f) = slept w ++ pauses ++ [x] ∧ (10 <= x <= 75 * 60)%Q).
Proof.
  intros Hrand.
  assert (Hu : ∀ a b n, (a <= b)%Q → (a <= uniform a b (rand e n) <= b)%Q).
  { intros a b n Hab. by apply uniform_range. }
  unfold iteration, try_except, iteration_try, iteration_except.
  destruct (api_check_claimable (http_check e)) as [[p m] st].
  mrun.
  assert (Hlt : ∀ x y, Qlt_bool x y = true → (x < y)%Q) by (intros; by apply Qlt_bool_iff).
  assert (Hge : ∀ x y, Qlt_bool x y = false → (y <= x)%Q)
    by (intros; by apply Qlt_bool_false_iff).
  destruct (truthy (dict_get_none (default ∅ (user_data_files w !! user_id)) "auth_token"));
    mrun; [|sleep_leaf Hu Hlt Hge].
  destruct (status_is 401 st); mrun; [sleep_leaf Hu Hlt Hge|].
  destruct (truthy p) eqn:Hp; mrun.
  2:{ unfold failed_check_branch. mrun. destruct (status_is 429 st); mrun; sleep_leaf Hu Hlt Hge. }
  destruct p as [| | | | |d]; mrun; try (sleep_leaf Hu Hlt Hge).
  destruct (truthy (dict_get d "isClaimable" JNull)); mrun.
  - unfold claiming_branch.
    destruct (api_get_token_info (http_info_before e)) as [p' m']. mrun.
    destruct (truthy p') eqn:Hp'; mrun; [|sleep_leaf Hu Hlt Hge].
    destruct p' as [| | | | |d']; mrun; try (sleep_leaf Hu Hlt Hge).
    match goal with |- context [claim_and_record ?a ?b ?c ?d ?f ?g] =>
      destruct (claim_and_record_shape a b c d f g)
        as [(r & x & -> & _) | (ex & -> & [-> | ->] & _)] end; mrun;
      try (sleep_leaf Hu Hlt Hge).
    destruct (claim_successful r); mrun; [sleep_leaf Hu Hlt Hge|].
    destruct (status_is 401 (status_code r)); mrun; sleep_leaf Hu Hlt Hge.
  - unfold waiting_branch. mrun.
    destruct (as_int (dict_get d "nextFrame" (JInt 0))) as [n|ex] eqn:En; mrun.
    2:{ destruct (dict_get d "nextFrame" (JInt 0)); simpl in En; try done;
          injection En as <-; mrun; sleep_leaf Hu Hlt Hge. }
    destruct (0 <? n); mrun; [|sleep_leaf Hu Hlt Hge].
    repeat (match goal with |- context [if ?b then _ else _] => destruct b eqn:? end; mrun);
      sleep_leaf Hu Hlt Hge.
Qed.

(** X11. The loop keeps its distance from the service.  With [random()] in
    [[0, 1]], a task that ran an iteration and did not end in it is asleep
    for at least 10 seconds and at most 75 minutes before it checks again,
    whatever the service answered. *)
Theorem live_task_sleeps_between_checks
    (e : env) (tid : nat) (user_id : N) (data : dict) (w : world) :
  (∀ n, (0 <= rand e n <= 1)%Q) →
  tasks w !! tid = Some (mkTask user_id (Suspended InRemoteCall data)) →
  let w' := task_step e tid w in
  task_state_of w' tid ≠ Some Finished →
  ∃ pauses x, slept w' = slept w ++ pauses ++ [x] ∧ (10 <= x <= 75 * 60)%Q.
Proof.
  intros Hrand Ht. cbn zeta. unfold task_step. rewrite Ht. cbn [owner state].
  destruct (iteration_effect e user_id data 0 w) as (c & f & Hi & Htasks & _).
  destruct (iteration_sleeps e user_id data 0 w Hrand) as (c2 & f2 & Hi2 & Hs).
  rewrite Hi in Hi2. injection Hi2 as <- <-. rewrite Hi.
  destruct c; intros Halive.
  - by apply Hs.
  - exfalso. apply Halive. unfold task_state_of. cbn.
    by rewrite list_lookup_alter_eq, Htasks, Ht.
  - destruct (Hs ltac:(done)) as (pauses & x & Hsl & Hb). exists pauses, x.
    split; [|done]. rewrite <- Hsl. unfold loop_test.
    by destruct (auto_claim_active (user_data f)).
Qed.

Lemma live_task_sleeps_between_checks_witness :
  let w' := task_step env_balance_gain 0 world_in_iteration in
  ∃ pauses x, slept w' = slept world_in_iteration ++ pauses ++ [x]
              ∧ (10 <= x <= 75 * 60)%Q.
Proof.
  cbn zeta.
  apply (live_task_sleeps_between_checks env_balance_gain 0 sample_user
           (token_record (Some true)) world_in_iteration).
  - intros n. cbn. lra.
  - reflexivity.
  - vm_compute. discriminate.
Defined.

(** ** Countdowns *)







(** ** Start, stop and the status query *)

Lemma start_effect (user_id : N) (chat_id : Z) (w : world) :
  has_credential w user_id = true →
  let w' := (core_autoclaim_start user_id chat_id w).2 in
  persisted_active w' user_id = true ∧ task_running w' user_id = true.
Proof.
  intros Hc. cbn zeta. unfold core_autoclaim_start.
  unfold has_credential, stored_user_data in Hc.
  mrun. rewrite Hc. mrun.
  destruct (auto_claim_active (default ∅ (user_data_files w !! user_id))
            && task_running w user_id) eqn:Hg; mrun.
  - apply andb_true_iff in Hg as [Ha Hr]. split; [|done].
    by unfold persisted_active, stored_user_data.
  - unfold create_task. mrun.
    unfold persisted_active, stored_user_data, task_running. cbn.
    rewrite !lookup_insert_eq. cbn. rewrite auto_claim_active_set.
    by rewrite lookup_snoc.
Qed.

Lemma stop_effect (user_id : N) (chat_id : Z) (w : world) :
  let w' := (core_autoclaim_stop user_id chat_id w).2 in
  persisted_active w' user_id = false ∧ task_running w' user_id = false.
Proof.
  cbn zeta. unfold core_autoclaim_stop. mrun.
  destruct (auto_claim_active (default ∅ (user_data_files w !! user_id))) eqn:Ha;
    destruct (task_running w user_id) eqn:Hr; mrun;
    unfold persisted_active, stored_user_data, task_running; cbn;
    rewrite ?lookup_insert_eq, ?lookup_delete_eq; cbn;
    rewrite ?auto_claim_active_set; try done.
  - destruct (AUTO_CLAIM_TASKS w !! user_id); mrun;
      by rewrite ?lookup_insert_eq, ?lookup_delete_eq; cbn;
         rewrite ?auto_claim_active_set.
  - destruct (AUTO_CLAIM_TASKS w !! user_id); mrun;
      by rewrite ?lookup_insert_eq, ?lookup_delete_eq; cbn;
         rewrite ?auto_claim_active_set.
Qed.

(** X14. The status query agrees with the last command.  For a user with a
    token, after [start] it reports the service active, whatever the state
    before, also after a [stop] (the reset the discrepancy notice
    recommends); after [stop] it reports the service inactive. *)
Theorem status_follows_start_and_stop
    (user_id : N) (chat_id : Z) (w : world) (said0 : list reply) :
  has_credential w user_id = true →
  let started := (core_autoclaim_start user_id chat_id w).2 in
  let stopped := (core_autoclaim_stop user_id chat_id w).2 in
  let reset := (core_autoclaim_start user_id chat_id stopped).2 in
  said (core_autoclaim_status user_id (mkSession started said0)).2
  = said0 ++ [ReportActive]
  ∧ said (core_autoclaim_status user_id (mkSession stopped said0)).2
    = said0 ++ [ReportInactive]
  ∧ said (core_autoclaim_status user_id (mkSession reset said0)).2
    = said0 ++ [ReportActive].
Proof.
  intros Hc. cbn zeta. rewrite !core_autoclaim_status_run. cbn.
  destruct (start_effect user_id chat_id w Hc) as [-> ->].
  destruct (stop_effect user_id chat_id w) as [-> _].
  assert (Hc' : has_credential (core_autoclaim_stop user_id chat_id w).2 user_id = true).
  { revert Hc. unfold has_credential, stored_user_data, core_autoclaim_stop. mrun.
    destruct (negb _ && negb _); mrun; [done|].
    intros Hc.
    destruct (task_running w user_id); mrun;
      [destruct (AUTO_CLAIM_TASKS w !! user_id); mrun|];
      rewrite lookup_insert_eq; cbn; unfold dict_get_none, dict_get in *;
      by rewrite lookup_insert_ne. }
  by destruct (start_effect user_id chat_id _ Hc') as [-> ->].
Qed.

Lemma status_follows_start_and_stop_witness :
  let w := world_desynced in
  let stopped := (core_autoclaim_stop sample_user 7001 w).2 in
  let reset := (core_autoclaim_start sample_user 7001 stopped).2 in
  said (core_autoclaim_status sample_user (mkSession reset [])).2 = [ReportActive]
  ∧ live_tasks_of reset sample_user = 1%nat.
Proof.
  cbn zeta.
  pose proof (status_follows_start_and_stop sample_user 7001 world_desynced []
                eq_refl) as (_ & _ & H).
  split; [exact H | reflexivity].
Defined.

(** X15. [stop] is idempotent: a second [stop] finds the service inactive,
    answers so, and changes nothing else. *)
Theorem stop_twice_is_stop_once (user_id : N) (chat_id chat_id' : Z) (w : world) :
  let w1 := (core_autoclaim_stop user_id chat_id w).2 in
  core_autoclaim_stop user_id chat_id' w1
  = (Returned tt, with_sent (λ l, l ++ [(chat_id', RAlreadyInactive)]) w1).
Proof.
  cbn zeta. destruct (stop_effect user_id chat_id w) as [Hp Hr].
  set (w1 := (core_autoclaim_stop user_id chat_id w).2) in *.
  unfold core_autoclaim_stop at 1. mrun.
  unfold persisted_active, stored_user_data in Hp. by rewrite Hp, Hr.
Qed.

(** ** The first resumption of a task *)

(** X16. What a new task does when it first runs.  Without a stored token
    it tells the user, saves [auto_claim_active = False] and returns: its
    handle stays in the registry, done, so the user is neither running nor
    due for a restart.  With a token it enters the loop when the stored
    flag is on, holding the stored record, and otherwise ends and removes
    its handle; in both cases it sends and writes nothing. *)
Theorem first_resumption_of_a_task (e : env) (tid : nat) (user_id : N) (w : world) :
  tasks w !! tid = Some (mkTask user_id Created) →
  AUTO_CLAIM_TASKS w !! user_id = Some tid →
  let w' := task_step e tid w in
  if has_credential w user_id then
    sent w' = sent w
    ∧ user_data_files w' = user_data_files w
    ∧ if persisted_active w user_id
      then task_state_of w' tid
           = Some (Suspended InRemoteCall (stored_user_data w user_id))
           ∧ AUTO_CLAIM_TASKS w' = AUTO_CLAIM_TASKS w
      else task_state_of w' tid = Some Finished
           ∧ AUTO_CLAIM_TASKS w' = delete user_id (AUTO_CLAIM_TASKS w)
  else
    sent w' = sent w ++ [(Z.of_N user_id, NTokenNotFound)]
    ∧ persisted_active w' user_id = false
    ∧ task_state_of w' tid = Some Finished
    ∧ AUTO_CLAIM_TASKS w' = AUTO_CLAIM_TASKS w
    ∧ task_running w' user_id = false
    ∧ needs_restart w' user_id = false.
Proof.
  intros Ht Hreg. cbn zeta. unfold task_step. rewrite Ht. cbn [owner state].
  unfold task_prologue, has_credential, stored_user_data.
  destruct (truthy (dict_get_none (default ∅ (user_data_files w !! user_id)) "auth_token"));
    cbn [negb].
  - unfold loop_test, persisted_active, stored_user_data, task_state_of.
    destruct (auto_claim_active (default ∅ (user_data_files w !! user_id))); cbn;
      by rewrite list_lookup_alter_eq, Ht.
  - unfold needs_restart, persisted_active, stored_user_data, task_state_of, task_running.
    cbn. rewrite Hreg, lookup_insert_eq, list_lookup_alter_eq, Ht. cbn.
    by rewrite auto_claim_active_set.
Qed.

Lemma first_resumption_of_a_task_witness :
  let w := (post_init (os_listdir world_flag_without_token) world_flag_without_token).2 in
  let w' := task_step env_balance_gain 0 w in
  tasks w = [mkTask sample_user Created]
  ∧ sent w' = [(Z.of_N sample_user, NTokenNotFound)]
  ∧ persisted_active w' sample_user = false
  ∧ tasks (post_init (os_listdir w') w').2 = tasks w'.
Proof.
  cbn zeta.
  pose proof (first_resumption_of_a_task env_balance_gain 0 sample_user
                (post_init (os_listdir world_flag_without_token)
                   world_flag_without_token).2 eq_refl eq_refl) as H.
  cbn zeta in H.
  change (has_credential _ sample_user) with false in H.
  destruct H as (H1 & H2 & _).
  split; [reflexivity|]. split; [exact H1|]. split; [exact H2|]. reflexivity.
Defined.

(** ** What ends the loop *)




(** ** The restart pass over any directory listing *)








(** ** The manual claim and the token *)

(** X19. The manual claim gives up before the claim, with one reply and
    nothing recorded, when no token is stored or when the balances cannot
    be read first; the answers to the later calls play no part. *)
Theorem manual_claim_gives_up_early (e : env) (user_id : N) (chat_id : Z) (w : world) :
  has_credential w user_id = false
  ∨ truthy (api_get_token_info (http_info_before e)).1 = false →
  let answer :=
    if has_credential w user_id
    then RBalanceBeforeFailed (api_get_token_info (http_info_before e)).2
    else RTokenNotSet in
  core_claim_action e user_id chat_id w
  = (Returned tt, with_sent (λ l, l ++ [(chat_id, answer)]) w).
Proof.
  intros H. cbn zeta. unfold core_claim_action, has_credential, stored_user_data in *.
  mrun.
  destruct (truthy (dict_get_none (default ∅ (user_data_files w !! user_id)) "auth_token"));
    mrun; [|done].
  destruct H as [H|H]; [done|].
  destruct (api_get_token_info (http_info_before e)) as [p m]. cbn in *.
  by rewrite H.
Qed.

Lemma manual_claim_gives_up_early_witness :
  core_claim_action env_balance_unread sample_user 7001 (world_of (Some true))
  = (Returned tt,
     with_sent (λ l, l ++ [(7001, RBalanceBeforeFailed
                                    (MsgFailed "Gagal" (JStr "Internal Server Error")
                                               (Some 500)))])
       (world_of (Some true))).
Proof.
  apply (manual_claim_gives_up_early env_balance_unread sample_user 7001
           (world_of (Some true))).
  right. reflexivity.
Defined.

Lemma prefix_ey_truthy (token : string) :
  String.prefix "ey" token = true → truthy (JStr token) = true.
Proof. by destruct token. Qed.

(** X20. [/settoken].  A token that starts with [ey] is stored before it
    is verified and stays stored whatever the verification returns, also
    when the profile it returns cannot be read; the rest of the user
    record, the flag included, is kept, and the user has a credential from
    then on.  Without an argument, or with a token of another shape,
    nothing is written. *)
Theorem set_token_stores_before_verifying
    (profile : http_result) (user_id : N) (chat_id : Z) (args : list string) (s : session) :
  chat_id ≠ 0 → user_id ≠ 0%N →
  let w := sworld s in
  let s' := (set_token_command profile user_id chat_id args s).2 in
  match args with
  | [] => s' = mkSession w (said s ++ [TokenUsage])
  | token :: _ =>
      if String.prefix "ey" token then
        sworld s'
        = with_user_data_files
            <[user_id := <["auth_token" := JStr token]> (stored_user_data w user_id)]> w
        ∧ has_credential (sworld s') user_id = true
        ∧ persisted_active (sworld s') user_id = persisted_active w user_id
        ∧ ∃ verdict, said s' = said s ++ [TokenSaved; TokenVerifying] ++ verdict
      else s' = mkSession w (said s ++ [TokenBadFormat])
  end.
Proof.
  intros Hchat Huser. cbn zeta. unfold set_token_command.
  destruct (Z.eqb_spec chat_id 0); [done|].
  destruct (N.eqb_spec user_id 0); [done|]. cbn [orb].
  destruct args as [|token rest]; [done|].
  destruct (String.prefix "ey" token) eqn:Hp; cbn [negb]; [|done].
  assert (Hcred : ∀ d : dict,
             truthy (dict_get_none (<["auth_token" := JStr token]> d) "auth_token") = true).
  { intros d. unfold dict_get_none, dict_get. rewrite lookup_insert_eq.
    by apply prefix_ey_truthy. }
  assert (Hflag : ∀ d : dict,
             auto_claim_active (<["auth_token" := JStr token]> d) = auto_claim_active d).
  { intros d. by apply auto_claim_active_other_key. }
  unfold has_credential, persisted_active, stored_user_data in *. srun.
  destruct (api_get_user_profile profile) as [p m]. srun.
  destruct (truthy p) eqn:Ht; srun.
  - destruct p as [| | | | |d]; srun;
      rewrite !lookup_insert_eq; cbn; rewrite Hcred, Hflag;
      (split; [done|]); (split; [done|]); (split; [done|]);
      rewrite <- ?app_assoc; by eexists.
  - rewrite !lookup_insert_eq. cbn. rewrite Hcred, Hflag.
    split; [done|]. split; [done|]. split; [done|].
    rewrite <- ?app_assoc. by eexists.
Qed.

Lemma set_token_stores_before_verifying_witness :
  let s' := (set_token_command (error_response 401 "Unauthorized") sample_user 7001
               ["eyJ0eXAiOiJKV1QifQ"] (mkSession (world_of (Some true)) [])).2 in
  stored_user_data (sworld s') sample_user !! "auth_token" = Some (JStr "eyJ0eXAiOiJKV1QifQ")
  ∧ persisted_active (sworld s') sample_user = true
  ∧ said s' = [TokenSaved; TokenVerifying;
               TokenVerificationFailed (MsgFailed "Gagal" (JStr "Unauthorized") (Some 401))].
Proof.
  cbn zeta.
  pose proof (set_token_stores_before_verifying (error_response 401 "Unauthorized")
                sample_user 7001 ["eyJ0eXAiOiJKV1QifQ"]
                (mkSession (world_of (Some true)) [])
                ltac:(discriminate) ltac:(discriminate)) as H.
  cbn zeta in H. cbn match in H.
  change (String.prefix "ey" "eyJ0eXAiOiJKV1QifQ") with true in H. cbn iota in H.
  destruct H as (H1 & _ & H3 & _).
  split; [by rewrite H1|]. split; [by rewrite H3|]. reflexivity.
Defined.

(** ** The numbering of the history view *)

Lemma enumerate_lookup {A} (l : list A) (i : nat) :
  enumerate l !! i = (λ x, (i, x)) <$> l !! i.
Proof. unfold enumerate. apply list_lookup_imap. Qed.

(** X21. The transaction numbers of the history view.  The [i]-th entry
    listed, counted from 0, carries the number [len(history) - i], and that
    number is the position of the entry in the stored history, counted from
    1: the newest entry comes first under the highest number. *)
Theorem history_numbers_are_positions
    (user_history : list history_entry) (i n : nat) (x : history_entry) :
  history_shown user_history !! i = Some (n, x) →
  n = (length user_history - i)%nat
  ∧ (i < 10)%nat
  ∧ (1 ≤ n ≤ length user_history)%nat
  ∧ user_history !! (n - 1)%nat = Some x.
Proof.
  unfold history_shown, last_slice. rewrite list_lookup_fmap, enumerate_lookup.
  set (len := length user_history).
  destruct (reverse (drop (len - 10) user_history) !! i) as [y|] eqn:Hy; [|done].
  cbn. intros [= <- <-].
  pose proof (lookup_lt_Some _ _ _ Hy) as Hlt.
  rewrite length_reverse, length_drop in Hlt. fold len in Hlt.
  rewrite reverse_lookup in Hy by (rewrite length_drop; fold len; lia).
  rewrite length_drop in Hy. fold len in Hy. rewrite lookup_drop in Hy.
  split; [done|]. split; [lia|]. split; [lia|].
  rewrite <- Hy. f_equal. lia.
Qed.

Lemma history_numbers_are_positions_witness :
  let entry (k : Z) := mkEntry "t" true (MsgText "ok") k 0 0 JNull JNull JNull in
  let h := entry <$> [1; 2; 3; 4; 5; 6; 7; 8; 9; 10; 11; 12] in
  12%nat = (length h - 0)%nat
  ∧ (0 < 10)%nat
  ∧ (1 ≤ 12 ≤ length h)%nat
  ∧ h !! (12 - 1)%nat = Some (entry 12).
Proof.
  cbn zeta.
  apply (history_numbers_are_positions
           ((λ k, mkEntry "t" true (MsgText "ok") k 0 0 JNull JNull JNull)
              <$> [1; 2; 3; 4; 5; 6; 7; 8; 9; 10; 11; 12]) 0 12
           (mkEntry "t" true (MsgText "ok") 12 0 0 JNull JNull JNull)).
  reflexivity.
Defined.

(** ** What is announced is what is recorded *)




(** ** A token stored while an iteration is pending *)

Lemma set_token_command_stores (profile : http_result) (user_id : N) (chat_id : Z)
    (token : string) (rest : list string) (s : session) :
  chat_id ≠ 0 → user_id ≠ 0%N → String.prefix "ey" token = true →
  sworld (set_token_command profile user_id chat_id (token :: rest) s).2
  = with_user_data_files
      <[user_id := <["auth_token" := JStr token]> (stored_user_data (sworld s) user_id)]>
      (sworld s).
Proof.
  intros Hchat Huser Hp. unfold set_token_command, stored_user_data.
  destruct (Z.eqb_spec chat_id 0); [done|].
  destruct (N.eqb_spec user_id 0); [done|]. cbn [orb]. rewrite Hp. cbn [negb].
  srun. destruct (api_get_user_profile profile) as [p m]. srun.
  destruct (truthy p) eqn:Ht; srun; [|done].
  by destruct p as [| | | | |d]; srun.
Qed.

(** X23. The record a task saves when it ends the loop is its own copy,
    read at the last test of the loop.  A token stored by [/settoken]
    after that test is in the file until the task, answered with 401,
    saves its copy with [auto_claim_active = False]: the file then holds
    the task's copy, with the token the copy had. *)
Theorem stopping_task_saves_its_own_copy
    (profile : http_result) (e : env) (tid : nat) (user_id : N) (chat_id : Z)
    (token : string) (rest : list string) (data : dict) (w : world) (said0 : list reply) :
  tasks w !! tid = Some (mkTask user_id (Suspended InRemoteCall data)) →
  chat_id ≠ 0 → user_id ≠ 0%N →
  String.prefix "ey" token = true →
  (http_check e).2 = Some 401 →
  let w1 := sworld (set_token_command profile user_id chat_id (token :: rest)
                      (mkSession w said0)).2 in
  let w2 := task_step e tid w1 in
  stored_user_data w1 user_id !! "auth_token" = Some (JStr token)
  ∧ stored_user_data w2 user_id = <["auto_claim_active" := JBool false]> data
  ∧ stored_user_data w2 user_id !! "auth_token" = data !! "auth_token".
Proof.
  intros Ht Hchat Huser Hp H401. cbn zeta.
  rewrite set_token_command_stores by done. cbn [sworld].
  split.
  { unfold stored_user_data. cbn. rewrite lookup_insert_eq. cbn. apply lookup_insert_eq. }
  unfold task_step. cbn [tasks with_user_data_files]. rewrite Ht. cbn [owner state].
  unfold iteration, try_except, iteration_try.
  pose proof (api_check_claimable_status (http_check e)) as Hst.
  destruct (api_check_claimable (http_check e)) as [[p m] st]. simpl in Hst.
  rewrite H401 in Hst. subst st.
  assert (Hcred : truthy (dict_get_none
                            (<["auth_token" := JStr token]> (stored_user_data w user_id))
                            "auth_token") = true).
  { unfold dict_get_none, dict_get. rewrite lookup_insert_eq. by apply prefix_ey_truthy. }
  mrun. rewrite lookup_insert_eq. cbn. rewrite Hcred. mrun.
  unfold stored_user_data. cbn. rewrite !lookup_insert_eq. cbn.
  split; [done|]. by rewrite lookup_insert_ne.
Qed.

Lemma stopping_task_saves_its_own_copy_witness :
  let w1 := sworld (set_token_command (ok_response (JDict ∅)) sample_user 7001
                      ["eyNEW"] (mkSession world_in_iteration [])).2 in
  let w2 := task_step (env_check_error 401 "Unauthorized") 0 w1 in
  stored_user_data w1 sample_user !! "auth_token" = Some (JStr "eyNEW")
  ∧ stored_user_data w2 sample_user !! "auth_token" = Some (JStr "eyJhbGciOiJIUzI1NiJ9").
Proof.
  cbn zeta.
  pose proof (stopping_task_saves_its_own_copy (ok_response (JDict ∅))
                (env_check_error 401 "Unauthorized") 0 sample_user 7001 "eyNEW" []
                (token_record (Some true)) world_in_iteration []
                eq_refl ltac:(discriminate) ltac:(discriminate) eq_refl eq_refl)
    as (H1 & _ & H3).
  split; [exact H1|]. rewrite H3. reflexivity.
Defined.

